(** * deoplete-solargraph: the solargraph completion source

    A shallow embedding of [rplugin/python3/deoplete/source/solargraph.py]
    and the properties of it that the specification states.

    Python values are modelled as follows.
    - A [str] is a list of characters whose code points are below 256
      ([ascii]); on such text the regular-expression class [\d] is exactly
      ['0'..'9']. The output of the child is taken as decoded: its lines
      are such text, and a failure of [decode('utf-8')] is not modelled.
    - [None] where a string is expected is [option]'s [None].
    - An exception is a value of [exn]; a call that can raise returns an
      [outcome].
    - Objects ([Server], [Source]) are records passed in and out of their
      methods, next to the [World] they act on (child processes, messages
      shown to the user).
    - What the program cannot decide by itself (what a child process prints,
      which paths exist, what the HTTP server answers, how a body parses)
      is read from an [Env]. *)

From Stdlib Require Import Strings.Ascii Strings.String NArith ZArith DecimalString.
From Stdlib Require Import DecimalN DecimalPos.
From stdpp Require Import gmap strings list.

Abbreviation str := (list ascii).
Coercion list_ascii_of_string : string >-> list.

(** ** Python built-ins used by the source *)

Module Py.

(** ['\n'] *)
Definition nl : ascii := "010"%char.

(** [s[:-1]] *)
Definition slice_init (s : str) : str := take (length s - 1) s.

(** [s.rfind(c) + 1]: one past the last occurrence of [c], [0] if there is
    none. *)
Fixpoint rfind1 (c : ascii) (s : str) : nat :=
  match s with
  | [] => 0
  | x :: t =>
      match rfind1 c t with
      | 0 => if Ascii.eqb x c then 1 else 0
      | S k => S (S k)
      end
  end.

(** [s.rstrip(c)] for a one-character [c] *)
Fixpoint rstrip (c : ascii) (s : str) : str :=
  match s with
  | [] => []
  | x :: t =>
      match rstrip c t with
      | [] => if Ascii.eqb x c then [] else [x]
      | r => x :: r
      end
  end.

(** [s.startswith(c)] and [s.endswith(c)] for a one-character [c] *)
Definition startswith (c : ascii) (s : str) : bool :=
  match s with x :: _ => Ascii.eqb x c | [] => false end.
Definition endswith (c : ascii) (s : str) : bool :=
  match last s with Some x => Ascii.eqb x c | None => false end.

(** truth value of a string: [not s] is [negb (truthy s)] *)
Definition truthy (s : str) : bool :=
  match s with [] => false | _ => true end.

(** [sep.join(l)] *)
Fixpoint join (sep : str) (l : list str) : str :=
  match l with
  | [] => []
  | [x] => x
  | x :: t => x ++ sep ++ join sep t
  end.

(** [n == s] for an [int] [n] and a [str] [s]: values of these two types
    never compare equal. *)
Definition int_eq_str (n : nat) (s : str) : bool := false.

(** [a or b] where [a] is [None] or a string *)
Definition or_else (a : option str) (b : str) : str :=
  match a with
  | Some s => if truthy s then s else b
  | None => b
  end.

(** [str(n)] for a non-negative [int] *)
Definition str_of_N (n : N) : str := NilZero.string_of_uint (N.to_uint n).

Definition is_digit (c : ascii) : bool :=
  (("0" <=? c) && (c <=? "9"))%char.

Definition digit_val (c : ascii) : N := N_of_ascii c - 48.

(** the value of a string of decimal digits, as [int(s)] returns it *)
Definition int_of_digits (s : str) : N :=
  fold_left (fun acc c => 10 * acc + digit_val c)%N s 0%N.

End Py.

(** ** [os.path] on a POSIX system *)

Module PosixPath.

Definition sep : ascii := "/"%char.

(** [os.path.dirname(p)]:
    [i = p.rfind('/') + 1; head = p[:i];
     if head and head != '/' * len(head): head = head.rstrip('/')] *)
Definition dirname (p : str) : str :=
  let i := Py.rfind1 sep p in
  let head := take i p in
  if Py.truthy head && negb (bool_decide (head = replicate (length head) sep))
  then Py.rstrip sep head
  else head.

(** [os.path.join(a, b)] *)
Definition join (a b : str) : str :=
  if Py.startswith sep b then b
  else if negb (Py.truthy a) || Py.endswith sep a then a ++ b
  else a ++ [sep] ++ b.

End PosixPath.

(** ** The environment and the world *)

Inductive exn : Type :=
  | ServerError (msg : str)
  | ClientError (msg : str)
  | HTTPError (code : N) (msg : str)
  | URLError (reason : str)
  | JSONDecodeError (msg : str)
  | OSError (msg : str)
  | AttributeError (msg : str)
  | ValueError (msg : str).

Inductive outcome (A : Type) : Type :=
  | Ret (a : A)
  | Raise (e : exn).
Arguments Ret {A} a.
Arguments Raise {A} e.

(** [str(error)] *)
Definition exn_str (e : exn) : str :=
  match e with
  | ServerError m | ClientError m | JSONDecodeError m | OSError m
  | AttributeError m | ValueError m => m
  | HTTPError code m => "HTTP Error " ++ Py.str_of_N code ++ ": " ++ m
  | URLError r => "<urlopen error " ++ r ++ ">"
  end.

(** [sys.int_max_str_digits], as CPython sets it by default (3.11 and later,
    and the security releases of the versions before). *)
Definition int_max_str_digits : nat := 4300.

(** [int(s)] for a non-empty string [s] of decimal digits: its value, unless
    [s] has more than [int_max_str_digits] digits, which [int] refuses with
    a [ValueError]. *)
Definition int_of_str (s : str) : outcome N :=
  if int_max_str_digits <? length s
  then Raise (ValueError
         ("Exceeds the limit (4300 digits) for integer string conversion: value has "
          ++ Py.str_of_N (N.of_nat (length s))
          ++ " digits; use sys.set_int_max_str_digits() to increase the limit"))
  else Ret (Py.int_of_digits s).

(** One item of [result['suggestions']] and the decoded response. *)
Record Suggestion := {
  s_insert : str;
  s_kind : str;
  s_label : str;
  s_detail : str;
  s_arguments : list str;
}.

Record Response := {
  r_status : str;
  r_suggestions : list Suggestion;
}.

(** A value of a request parameter. *)
Inductive pyval : Type :=
  | PStr (s : str)
  | PInt (z : Z).

Record Env := {
  (** what the [n]-th child process started prints on its standard output
      and error, line by line, when run as [command args]; [None] when
      [subprocess.Popen] fails *)
  spawn_output : nat -> str -> list str -> option (list str);
  (** [vim.call('executable', command)] *)
  executable : str -> bool;
  (** [os.path.exists] *)
  path_exists : str -> bool;
  (** [opener.open(url, data).read()], [data] being the url-encoding of the
      given pairs *)
  http_post : str -> list (str * pyval) -> outcome str;
  (** [json.loads(body.decode('utf8'))] *)
  json_loads : str -> outcome Response;
  (** [getlines(vim)] *)
  getlines : list str;
}.

(** A child process: what it still has to print, whether our end of its
    output pipe is closed, whether it was killed. *)
Record Child := {
  ch_command : str;
  ch_args : list str;
  ch_stdout : list str;
  ch_closed : bool;
  ch_killed : bool;
}.

(** What [print_error] was called with. *)
Inductive report : Type :=
  | ReportStr (s : str)
  | ReportResult (r : Response).

Record World := {
  children : list Child;
  reports : list report;
}.

Definition print_error (r : report) (w : World) : World :=
  {| children := children w; reports := reports w ++ [r] |}.

(** The child has read lines taken from its output: [lines] are left. *)
Definition with_stdout (lines : list str) (c : Child) : Child :=
  {| ch_command := ch_command c; ch_args := ch_args c; ch_stdout := lines;
     ch_closed := ch_closed c; ch_killed := ch_killed c |}.

(** [proc.stdout.close()] *)
Definition close_stdout (c : Child) : Child :=
  {| ch_command := ch_command c; ch_args := ch_args c; ch_stdout := ch_stdout c;
     ch_closed := true; ch_killed := ch_killed c |}.

(** [proc.kill()] *)
Definition kill (c : Child) : Child :=
  {| ch_command := ch_command c; ch_args := ch_args c; ch_stdout := ch_stdout c;
     ch_closed := ch_closed c; ch_killed := true |}.

(** An operation on the child behind the handle [h]. *)
Definition on_child (f : Child -> Child) (h : nat) (w : World) : World :=
  {| children := alter f h (children w); reports := reports w |}.

(** ** Module-level functions *)

(** [collect_not_none] *)
Definition collect_not_none (d : list (str * option pyval)) : list (str * pyval) :=
  omap (fun kv => match kv.2 with Some v => Some (kv.1, v) | None => None end) d.

(** [post_request]; [urljoin(url, path)] is [url ++ path] for the base urls
    and paths of this program (a base ending in [/], a one-word path). *)
Definition post_request (env : Env) (url path : str)
    (params : list (str * option pyval)) : outcome str :=
  let url := url ++ path in
  let params := collect_not_none params in
  http_post env url params.

(** The body of the loop of [find_dir_recursive], run at most [fuel] times;
    the outer [None] is for running out of [fuel]. *)
Fixpoint find_dir_loop (env : Env) (fuel : nat) (base_dir : str)
    (targets : list str) : option (option str) :=
  match fuel with
  | 0 => None
  | S fuel' =>
      let parent := PosixPath.dirname (Py.slice_init base_dir) in
      if bool_decide (parent = "") then Some None
      else if existsb (fun path => path_exists env (PosixPath.join base_dir path)) targets
      then Some (Some base_dir)
      else find_dir_loop env fuel' parent targets
  end.

(** [find_dir_recursive]. Each turn of the loop shortens [base_dir], so
    [S (length base_dir)] turns are enough ([find_dir_loop_total]). *)
Definition find_dir_recursive (env : Env) (base_dir : str) (targets : list str)
    : option str :=
  match find_dir_loop env (S (length base_dir)) base_dir targets with
  | Some r => r
  | None => None
  end.

(** ** The two regular expressions, as [re.search] runs them

    [re.search] tries the start offsets [0, 1, ..., len(s)] from left to
    right and returns the first match; a repetition is greedy and gives
    characters back one at a time when what follows it fails. *)

Module Re.

(** Does [s] begin with the literal [lit]? The rest of [s] if so. *)
Fixpoint literal (lit s : str) : option str :=
  match lit, s with
  | [], _ => Some s
  | a :: lit', b :: s' => if Ascii.eqb a b then literal lit' s' else None
  | _ :: _, [] => None
  end.

(** [\d+], greedy: the longest run of digits at the head of [s] *)
Fixpoint digits (s : str) : str :=
  match s with
  | c :: t => if Py.is_digit c then c :: digits t else []
  | [] => []
  end.

(** [PORT=(\d+)] at the start of [s]: group 1 of the match. Nothing
    follows the group, so the greedy run is never shortened. *)
Definition port_at (s : str) : option str :=
  match literal "PORT=" s with
  | Some rest =>
      match digits rest with
      | [] => None
      | ds => Some ds
      end
  | None => None
  end.

(** [re.search(r'PORT=(\d+)', line)]: [match.group(1)], or [None] *)
Fixpoint search_port (line : str) : option str :=
  match port_at line with
  | Some ds => Some ds
  | None =>
      match line with
      | [] => None
      | _ :: t => search_port t
      end
  end.

(** the class [[a-zA-Z0-9_?!]] *)
Definition word_char (c : ascii) : bool :=
  ((("a" <=? c) && (c <=? "z")) || (("A" <=? c) && (c <=? "Z"))
   || (("0" <=? c) && (c <=? "9"))
   || (c =? "_") || (c =? "?") || (c =? "!"))%char.

(** [$] without [re.MULTILINE]: at the end of the string, and just before
    a newline that is its last character. [rest] is what is left of the
    string at the position tested. *)
Definition at_dollar (rest : str) : bool :=
  match rest with
  | [] => true
  | [c] => Ascii.eqb c Py.nl
  | _ => false
  end.

(** [[a-zA-Z0-9_?!]*$] at the start of [rest]: take one more character of
    the class when the whole still matches, stop here otherwise. *)
Fixpoint star_dollar (rest : str) : bool :=
  match rest with
  | c :: t =>
      if word_char c then star_dollar t || at_dollar rest
      else at_dollar rest
  | [] => at_dollar rest
  end.

(** [re.search('[a-zA-Z0-9_?!]*$', s)]: [m.start()], counted from [pos],
    or [None] *)
Fixpoint search_tail (pos : nat) (rest : str) : option nat :=
  if star_dollar rest then Some pos
  else
    match rest with
    | [] => None
    | _ :: t => search_tail (S pos) t
    end.

End Re.

(** ** [class Server] *)

Module Server.

Record t := {
  command : str;
  args : list str;
  (** the handle of the child: its index in [children] *)
  proc : option nat;
  port : option N;
  host : str;
  url : str;
}.

Definition set_proc (p : option nat) (self : t) : t :=
  {| command := command self; args := args self; proc := p;
     port := port self; host := host self; url := url self |}.

Definition set_port (p : option N) (self : t) : t :=
  {| command := command self; args := args self; proc := proc self;
     port := p; host := host self; url := url self |}.

Definition set_endpoint (h u : str) (self : t) : t :=
  {| command := command self; args := args self; proc := proc self;
     port := port self; host := h; url := u |}.

(** [subprocess.Popen([command, *args], ...)]: a new child, whose handle
    is returned *)
Definition popen (env : Env) (cmd : str) (arguments : list str) (w : World)
    : outcome nat * World :=
  let h := length (children w) in
  match spawn_output env h cmd arguments with
  | None => (Raise (OSError cmd), w)
  | Some lines =>
      (Ret h,
       {| children := children w ++
            [{| ch_command := cmd; ch_args := arguments; ch_stdout := lines;
                ch_closed := false; ch_killed := false |}];
          reports := reports w |})
  end.

(** ['Failed to start server' + (output and ':\n' + output)] *)
Definition failure_message (output : str) : str :=
  "Failed to start server" ++
    (if Py.truthy output then ":" ++ [Py.nl] ++ output else output).

(** The [while True] loop of [start] over the lines the child still has to
    print: [readline()] takes the first of them, and returns [''] once
    there are none. An exception of [int] leaves the loop. The result comes
    with the lines left unread. *)
Fixpoint read_port (stdout : list str) (output : str)
    : outcome N * list str :=
  match stdout with
  | [] => (Raise (ServerError (failure_message output)), [])
  | line :: rest =>
      if negb (Py.truthy line)
      then (Raise (ServerError (failure_message output)), rest)
      else
        match Re.search_port line with
        | Some group1 =>
            match int_of_str group1 with
            | Ret p => (Ret p, rest)
            | Raise e => (Raise e, rest)
            end
        | None => read_port rest (output ++ line)
        end
  end.

(** [start] *)
Definition start (env : Env) (self : t) (w : World)
    : outcome unit * t * World :=
  match popen env (command self) (args self) w with
  | (Raise e, w) => (Raise e, self, w)
  | (Ret h, w) =>
      let self := set_proc (Some h) self in
      let stdout := match children w !! h with
                    | Some c => ch_stdout c
                    | None => []
                    end in
      match read_port stdout "" with
      | (Raise e, rest) => (Raise e, self, on_child (with_stdout rest) h w)
      | (Ret p, rest) =>
          (Ret tt, set_port (Some p) self, on_child (with_stdout rest) h w)
      end
  end.

(** [__init__]; the three [signal.signal] registrations are left out, no
    signal is delivered in this model. *)
Definition init (env : Env) (cmd : str) (arguments : list str) (w : World)
    : outcome t * World :=
  let self := {| command := cmd; args := arguments; proc := None;
                 port := None; host := ""; url := "" |} in
  match start env self w with
  | (Raise e, _, w) => (Raise e, w)
  | (Ret _, self, w) =>
      let h : str := "localhost" in
      let p : str := match port self with
                     | Some p => Py.str_of_N p
                     | None => "None"
                     end in
      (Ret (set_endpoint h ("http://" ++ h ++ ":" ++ p ++ "/") self), w)
  end.

(** [stop] *)
Definition stop (self : t) (w : World) : t * World :=
  match proc self with
  | None => (self, w)
  | Some h =>
      let w := on_child close_stdout h w in
      let w := on_child kill h w in
      (set_port None (set_proc None self), w)
  end.

(** [is_started] *)
Definition is_started (self : t) : bool :=
  bool_decide (proc self <> None) && bool_decide (port self <> None).

End Server.

(** ** [class Client] *)

Module Client.

Record t := { url : str }.

(** [request]: the [try] block is the request and the decoding of its
    answer; only [HTTPError] is caught. *)
Definition request (env : Env) (self : t) (path : str)
    (params : list (str * option pyval)) : outcome Response :=
  let attempt :=
    match post_request env (url self) path params with
    | Ret result => json_loads env result
    | Raise e => Raise e
    end in
  match attempt with
  | Raise (HTTPError code msg) =>
      Raise (ClientError (exn_str (HTTPError code msg)))
  | r => r
  end.

(** [suggest] *)
Definition suggest (env : Env) (self : t) (text : str) (line column : Z)
    (filename workspace : option str) (with_snippets with_all : option pyval)
    : outcome Response :=
  let params : list (str * option pyval) :=
    [ ("text" : str, Some (PStr text));
      ("line" : str, Some (PInt line));
      ("column" : str, Some (PInt column));
      ("filename" : str, PStr <$> filename);
      ("workspace" : str, PStr <$> workspace);
      ("with_snippets" : str, with_snippets);
      ("all" : str, with_all) ] in
  request env self "suggest" params.

(** [define] *)
Definition define (env : Env) (self : t) (text : str) (line column : Z)
    (filename workspace : option str) : outcome Response :=
  let params : list (str * option pyval) :=
    [ ("text" : str, Some (PStr text));
      ("line" : str, Some (PInt line));
      ("column" : str, Some (PInt column));
      ("filename" : str, PStr <$> filename);
      ("workspace" : str, PStr <$> workspace) ] in
  request env self "define" params.

(** [resolve] *)
Definition resolve (env : Env) (self : t) (path : option str)
    (filename workspace : option str) : outcome Response :=
  let params : list (str * option pyval) :=
    [ ("path" : str, PStr <$> path);
      ("filename" : str, PStr <$> filename);
      ("workspace" : str, PStr <$> workspace) ] in
  request env self "resolve" params.

(** [signify] *)
Definition signify (env : Env) (self : t) (text : str) (line column : Z)
    (filename workspace : option str) : outcome Response :=
  let params : list (str * option pyval) :=
    [ ("text" : str, Some (PStr text));
      ("line" : str, Some (PInt line));
      ("column" : str, Some (PInt column));
      ("filename" : str, PStr <$> filename);
      ("workspace" : str, PStr <$> workspace) ] in
  request env self "signify" params.

End Client.

(** ** [class Source] *)

(** The entries of [context] that the source reads. *)
Record Context := {
  input : str;
  (** [context['position'][1]] *)
  position_1 : Z;
  complete_position : Z;
  bufpath : str;
}.

(** A candidate handed back to deoplete. *)
Record Candidate := {
  word : str;
  kind : str;
  dup : Z;
  abbr : str;
  info : str;
  menu : str;
}.

Module Source.

Record t := {
  command : str;
  args : list str;
  is_server_started : bool;
  server : option Server.t;
  client : option Client.t;
  workspace_cache : gmap str str;
}.

Definition set_workspace_cache (c : gmap str str) (self : t) : t :=
  {| command := command self; args := args self;
     is_server_started := is_server_started self; server := server self;
     client := client self; workspace_cache := c |}.

(** How [start_server] returns: [True], [False], or by a bare [return]. *)
Inductive started : Type := PyTrue | PyFalse | PyNone.

Definition truthy (r : started) : bool :=
  match r with PyTrue => true | _ => false end.

(** [start_server] *)
Definition start_server (env : Env) (self : t) (w : World)
    : outcome started * t * World :=
  if is_server_started self then (Ret PyTrue, self, w)
  else if negb (Py.truthy (command self))
  then (Ret PyNone, self, print_error (ReportStr "No solargraph binary set.") w)
  else if negb (executable env (command self)) then (Ret PyFalse, self, w)
  else
    match Server.init env (command self) (args self) w with
    | (Raise (ServerError msg), w) =>
        (Ret PyFalse, self, print_error (ReportStr (exn_str (ServerError msg))) w)
    | (Raise e, w) => (Raise e, self, w)
    | (Ret srv, w) =>
        (Ret PyTrue,
         {| command := command self; args := args self;
            is_server_started := true; server := Some srv;
            client := Some {| Client.url := Server.url srv |};
            workspace_cache := workspace_cache self |},
         w)
    end.

(** [get_complete_position] *)
Definition get_complete_position (context : Context) : Z :=
  match Re.search_tail 0 (input context) with
  | Some start => Z.of_nat start
  | None => -1
  end.

(** [build_abbr] *)
Definition build_abbr (cand : Suggestion) : str :=
  let abbr := s_label cand in
  let kind := s_kind cand in
  if bool_decide (kind = "Method")
  then
    let args := Py.join ", " (s_arguments cand) in
    abbr ++ "(" ++ args ++ ")"
  else abbr.

(** [find_workspace_directory]: the result and the cache afterwards. *)
Definition find_workspace_directory (env : Env) (cache : gmap str str)
    (filepath : str) : option str * gmap str str :=
  let file_dir := PosixPath.dirname filepath in
  if Py.int_eq_str (length file_dir) "" then (None, cache)
  else
    match cache !! file_dir with
    | Some root => (Some root, cache)
    | None =>
        let root :=
          Py.or_else (find_dir_recursive env file_dir ["Gemfile" : str; ".git" : str])
                     file_dir in
        (Some root, <[file_dir := root]> cache)
    end.

(** [gather_candidates]; the text sent is the joined lines (its encoding to
    bytes is not modelled). *)
Definition gather_candidates (env : Env) (self : t) (context : Context)
    (w : World) : outcome (list Candidate) * t * World :=
  match start_server env self w with
  | (Raise e, self, w) => (Raise e, self, w)
  | (Ret ok, self, w) =>
      if negb (truthy ok) then (Ret [], self, w)
      else
        let line := (position_1 context - 1)%Z in
        let column := complete_position context in
        let text := Py.join [Py.nl] (getlines env) in
        let filename := bufpath context in
        let '(workspace, cache) :=
          find_workspace_directory env (workspace_cache self) (bufpath context) in
        let self := set_workspace_cache cache self in
        match client self with
        | None => (Raise (AttributeError "client"), self, w)
        | Some cl =>
            match Client.suggest env cl text line column (Some filename)
                    workspace None None with
            | Raise e => (Raise e, self, w)
            | Ret result =>
                if negb (bool_decide (r_status result = "ok"))
                then (Ret [], self, print_error (ReportResult result) w)
                else
                  (Ret ((fun cand =>
                           {| word := s_insert cand;
                              kind := s_kind cand;
                              dup := 1;
                              abbr := build_abbr cand;
                              info := s_label cand;
                              menu := s_detail cand |})
                        <$> r_suggestions result),
                   self, w)
            end
        end
  end.

End Source.

(** ** Notions of the specification *)

(** A directory or file name: not empty, without a separator. *)
Definition component (c : str) : Prop := c <> [] /\ PosixPath.sep ∉ c.

#[global] Instance component_dec (c : str) : Decision (component c).
Proof. unfold component. apply _. Defined.

(** The absolute path [/c1/.../cn] of a list of components. *)
Fixpoint path_of (cs : list str) : str :=
  match cs with
  | [] => []
  | c :: r => PosixPath.sep :: c ++ path_of r
  end.

(** The same as a directory: the root is [/]. *)
Definition dir_of (cs : list str) : str :=
  match cs with
  | [] => [PosixPath.sep]
  | _ => path_of cs
  end.

(** The entry [name] of the directory [cs]. *)
Definition entry_of (cs : list str) (name : str) : str :=
  path_of cs ++ PosixPath.sep :: name.

Definition markers : list str := ["Gemfile" : str; ".git" : str].

(** The directory [cs] directly contains one of the markers. *)
Definition marked (env : Env) (cs : list str) : bool :=
  existsb (fun m => path_exists env (entry_of cs m)) markers.

(** The directory [cs] and its ancestors below the root, nearest first. *)
Fixpoint levels_upto (n : nat) (cs : list str) : list (list str) :=
  match n with
  | 0 => []
  | S k => take (S k) cs :: levels_upto k cs
  end.
Definition levels (cs : list str) : list (list str) :=
  levels_upto (length cs) cs.

(** The workspace of a file in the directory [cs] as the specification words
    it: the nearest of the directory and its ancestors, the root included,
    that is marked, and the directory itself when there is none. *)
Definition workspace_to_root (env : Env) (cs : list str) : str :=
  match List.find (marked env) (levels cs ++ [[]]) with
  | Some a => dir_of a
  | None => dir_of cs
  end.

(** The same, the root left out of the walk. *)
Definition workspace_below_root (env : Env) (cs : list str) : str :=
  match List.find (marked env) (levels cs) with
  | Some a => dir_of a
  | None => dir_of cs
  end.

(** [s] occurs in [t]. *)
Definition occurs_in (s t : str) : Prop := exists a b, t = a ++ s ++ b.

(** The line carries a port announcement: [PORT=] followed by a digit. *)
Definition announces (l : str) : Prop :=
  exists a d b, l = a ++ "PORT=" ++ d :: b /\ Py.is_digit d = true.

(** No digit is the next character of [b]. *)
Definition no_digit_ahead (b : str) : Prop :=
  match b with
  | c :: _ => Py.is_digit c = false
  | [] => True
  end.

(** The first announcement of the line [l] is the number written [ds]: the
    digits that follow the first [PORT=] which a digit follows. *)
Definition first_announcement (l ds : str) : Prop :=
  exists a b, l = a ++ "PORT=" ++ ds ++ b
    /\ ~ announces a
    /\ ds <> [] /\ Forall (fun c => Py.is_digit c = true) ds
    /\ no_digit_ahead b.

(** A line of the child's output before its announcement: a line (not the
    empty read that ends the stream) without an announcement. *)
Definition preamble (l : str) : Prop := l <> [] /\ ~ announces l.

(** The world after [self] spawned its child in [w] and read its output up
    to the lines [rest]. *)
Definition after_spawn (self : Server.t) (w : World) (rest : list str) : World :=
  {| children := children w ++
       [{| ch_command := Server.command self; ch_args := Server.args self;
           ch_stdout := rest; ch_closed := false; ch_killed := false |}];
     reports := reports w |}.

(** The arguments of a call, as they are displayed: separated by a comma and
    a space. *)
Definition comma_list (l : list str) : str :=
  match l with
  | [] => []
  | x :: t => x ++ concat ((fun a => ", " ++ a) <$> t)
  end.

(** The parameter [k] as it goes out: present when it has a value. *)
Definition field (k : str) (v : option pyval) : list (str * pyval) :=
  match v with
  | Some x => [(k, x)]
  | None => []
  end.

(** [env] with another transport. *)
Definition with_http (post : str -> list (str * pyval) -> outcome str)
    (env : Env) : Env :=
  {| spawn_output := spawn_output env; executable := executable env;
     path_exists := path_exists env; http_post := post;
     json_loads := json_loads env; getlines := getlines env |}.

(** [env] with another file system. *)
Definition with_files (exists_ : str -> bool) (env : Env) : Env :=
  {| spawn_output := spawn_output env; executable := executable env;
     path_exists := exists_; http_post := http_post env;
     json_loads := json_loads env; getlines := getlines env |}.

(** What the fields of a [Source] promise each other: when
    [is_server_started] is set there is a server, started, and a client for
    its url. *)
Definition consistent (self : Source.t) : Prop :=
  Source.is_server_started self = true ->
  exists srv,
    Source.server self = Some srv
    /\ Source.client self = Some {| Client.url := Server.url srv |}
    /\ Server.is_started srv = true.

(** The candidate made of a suggestion, field by field. *)
Definition describes (cand : Suggestion) (c : Candidate) : Prop :=
  word c = s_insert cand /\ kind c = s_kind cand /\ info c = s_label cand
  /\ menu c = s_detail cand.

(** The number that a decimal numeral writes, read from the left with the
    digits before it worth [acc]. *)
Fixpoint uint_value (d : Decimal.uint) (acc : N) : N :=
  match d with
  | Decimal.Nil => acc
  | Decimal.D0 d => uint_value d (10 * acc + 0)
  | Decimal.D1 d => uint_value d (10 * acc + 1)
  | Decimal.D2 d => uint_value d (10 * acc + 2)
  | Decimal.D3 d => uint_value d (10 * acc + 3)
  | Decimal.D4 d => uint_value d (10 * acc + 4)
  | Decimal.D5 d => uint_value d (10 * acc + 5)
  | Decimal.D6 d => uint_value d (10 * acc + 6)
  | Decimal.D7 d => uint_value d (10 * acc + 7)
  | Decimal.D8 d => uint_value d (10 * acc + 8)
  | Decimal.D9 d => uint_value d (10 * acc + 9)
  end%N.

(** ** Environments and states to run the program on *)

(** Every child prints [lines]; every command is executable; the paths that
    exist are [files]; every request is answered by [answer], and every body
    parses as [parsed]. *)
Definition example_env (lines files : list str) (answer : outcome str)
    (parsed : outcome Response) : Env :=
  {| spawn_output := fun _ _ _ => Some lines;
     executable := fun _ => true;
     path_exists := fun p => bool_decide (p ∈ files);
     http_post := fun _ _ => answer;
     json_loads := fun _ => parsed;
     getlines := ["def foo" : str; "end" : str] |}.

(** A file system with a [.git] in the root only. *)
Definition env_root_git : Env :=
  example_env [] ["/.git" : str] (Ret []) (Raise (JSONDecodeError "")).

(** A file system with a [Gemfile] in [/home/me/proj]. *)
Definition env_proj : Env :=
  example_env [] ["/home/me/proj/Gemfile" : str] (Ret []) (Raise (JSONDecodeError "")).

(** The directory [/home/me/proj/lib]. *)
Definition proj_lib : list str :=
  ["home" : str; "me" : str; "proj" : str; "lib" : str].

(** A server that announces its port after one line, and answers every
    request with status 500. *)
Definition env_boot : Env :=
  example_env ["Booting..." ++ [Py.nl]; "PORT=5555" ++ [Py.nl]] []
    (Raise (HTTPError 500 "Internal Server Error")) (Raise (JSONDecodeError "")).

(** A server that exits without announcing a port. *)
Definition env_no_port : Env :=
  example_env ["Booting..." ++ [Py.nl]; "bye" ++ [Py.nl]] []
    (Ret []) (Raise (JSONDecodeError "")).

(** A server that cannot be connected to. *)
Definition env_refused : Env :=
  example_env ["PORT=5555" ++ [Py.nl]] []
    (Raise (URLError "[Errno 111] Connection refused")) (Raise (JSONDecodeError "")).

(** The [Server] object when [__init__] calls [start]. *)
Definition server0 : Server.t :=
  {| Server.command := "solargraph"; Server.args := ["socket" : str];
     Server.proc := None; Server.port := None;
     Server.host := ""; Server.url := "" |}.

(** The [Source] after [on_init] with the default settings. *)
Definition source0 : Source.t :=
  {| Source.command := "solargraph"; Source.args := ["socket" : str];
     Source.is_server_started := false; Source.server := None;
     Source.client := None; Source.workspace_cache := ∅ |}.

Definition context0 : Context :=
  {| input := "foo.ba"; position_1 := 1; complete_position := 4;
     bufpath := "/home/me/proj/lib/a.rb" |}.

Definition world0 : World := {| children := []; reports := [] |}.

(** The server object and the world after [Server("solargraph", ["socket"])]
    in [env_boot]. *)
Definition server1 : Server.t :=
  {| Server.command := "solargraph"; Server.args := ["socket" : str];
     Server.proc := Some 0; Server.port := Some 5555%N;
     Server.host := "localhost"; Server.url := "http://localhost:5555/" |}.

Definition world1 : World := after_spawn server0 world0 [].

(** The [Source] once [start_server] has succeeded in [env_boot]. *)
Definition source1 : Source.t :=
  {| Source.command := "solargraph"; Source.args := ["socket" : str];
     Source.is_server_started := true; Source.server := Some server1;
     Source.client := Some {| Client.url := "http://localhost:5555/" |};
     Source.workspace_cache := ∅ |}.

(** A method and a constant among the suggestions. *)
Definition cand_method : Suggestion :=
  {| s_insert := "label"; s_kind := "Method"; s_label := "label";
     s_detail := "=> String"; s_arguments := ["a" : str; "b" : str] |}.
Definition cand_constant : Suggestion :=
  {| s_insert := "String"; s_kind := "Class"; s_label := "String";
     s_detail := "Class"; s_arguments := [] |}.

(** A server that answers every request with two suggestions. *)
Definition response_ok : Response :=
  {| r_status := "ok"; r_suggestions := [cand_method; cand_constant] |}.
Definition env_ok : Env :=
  example_env ["PORT=5555" ++ [Py.nl]] [] (Ret ("{...}" : str)) (Ret response_ok).

(** A server that answers every request with a status that is not [ok]. *)
Definition response_err : Response :=
  {| r_status := "err"; r_suggestions := [] |}.
Definition env_soft : Env :=
  example_env ["PORT=5555" ++ [Py.nl]] [] (Ret ("{...}" : str)) (Ret response_err).

(** A server that announces its port with zeros in front. *)
Definition env_zeros : Env :=
  example_env ["PORT=0080" ++ [Py.nl]] [] (Ret []) (Raise (JSONDecodeError "")).

(** A server that announces a port of 4301 digits. *)
Definition env_long_port : Env :=
  example_env ["PORT=" ++ replicate 4301 "1"%char ++ [Py.nl]] []
    (Ret []) (Raise (JSONDecodeError "")).

(** No command is executable. *)
Definition env_no_exec : Env :=
  {| spawn_output := fun _ _ _ => Some [];
     executable := fun _ => false;
     path_exists := fun _ => false;
     http_post := fun _ _ => Ret [];
     json_loads := fun _ => Ret response_ok;
     getlines := [] |}.

(** [subprocess.Popen] fails. *)
Definition env_popen_fails : Env :=
  {| spawn_output := fun _ _ _ => None;
     executable := fun _ => true;
     path_exists := fun _ => false;
     http_post := fun _ _ => Ret [];
     json_loads := fun _ => Ret response_ok;
     getlines := [] |}.

(** The [Source] when no command is configured. *)
Definition source_no_command : Source.t :=
  {| Source.command := ""; Source.args := ["socket" : str];
     Source.is_server_started := false; Source.server := None;
     Source.client := None; Source.workspace_cache := ∅ |}.


(** * Properties *)

(** Settles a closed decidable proposition by evaluating its decision. *)
Ltac by_compute := apply (bool_decide_unpack _); vm_compute; exact I.


(** ** Strings and paths *)

Section PathLemmas.

Variable sep : ascii.

Lemma slice_init_snoc (s : str) (x : ascii) : Py.slice_init (s ++ [x]) = s.
Proof.
  unfold Py.slice_init. rewrite length_app. simpl.
  replace (length s + 1 - 1) with (length s) by lia.
  by rewrite take_app_length.
Qed.

Lemma slice_init_length (s : str) : length (Py.slice_init s) = length s - 1.
Proof. unfold Py.slice_init. rewrite length_take. lia. Qed.

Lemma rfind1_absent (s : str) : sep ∉ s -> Py.rfind1 sep s = 0.
Proof.
  induction s as [|x t IH]; [done|].
  intros Hn. apply not_elem_of_cons in Hn as [Hx Ht]. simpl.
  rewrite (IH Ht). destruct (Ascii.eqb_spec x sep); congruence.
Qed.

Lemma rfind1_last (a b : str) :
  sep ∉ b -> Py.rfind1 sep (a ++ sep :: b) = S (length a).
Proof.
  intros Hb. induction a as [|x a IH]; simpl.
  - rewrite (rfind1_absent b Hb). by rewrite Ascii.eqb_refl.
  - by rewrite IH.
Qed.

Lemma rfind1_le (s : str) : Py.rfind1 sep s <= length s.
Proof.
  induction s as [|x t IH]; simpl; [lia|].
  destruct (Py.rfind1 sep t); [destruct (Ascii.eqb x sep); simpl; lia | lia].
Qed.

Lemma rstrip_snoc_other (c x : ascii) (s : str) :
  x <> c -> Py.rstrip c (s ++ [x]) = s ++ [x].
Proof.
  intros Hx. induction s as [|y s IH]; simpl.
  - destruct (Ascii.eqb_spec x c); congruence.
  - rewrite IH. by destruct s.
Qed.

Lemma rstrip_snoc_same (c : ascii) (s : str) :
  Py.rstrip c (s ++ [c]) = Py.rstrip c s.
Proof.
  induction s as [|y s IH]; simpl.
  - by rewrite Ascii.eqb_refl.
  - by rewrite IH.
Qed.

Lemma rstrip_length (c : ascii) (s : str) : length (Py.rstrip c s) <= length s.
Proof.
  induction s as [|y s IH]; simpl; [lia|].
  destruct (Py.rstrip c s); [destruct (Ascii.eqb y c)|]; simpl in *; lia.
Qed.

End PathLemmas.

Lemma dirname_length (p : str) : length (PosixPath.dirname p) <= length p.
Proof.
  unfold PosixPath.dirname.
  pose proof (rfind1_le PosixPath.sep p) as Hle.
  assert (length (take (Py.rfind1 PosixPath.sep p) p) <= length p) as Ht
    by (rewrite length_take; lia).
  destruct (_ && _); [|done].
  etrans; [apply rstrip_length|done].
Qed.

Lemma path_of_snoc (cs : list str) (c : str) :
  path_of (cs ++ [c]) = path_of cs ++ PosixPath.sep :: c.
Proof.
  induction cs as [|d cs IH]; simpl.
  - by rewrite app_nil_r.
  - rewrite IH. by rewrite <- app_assoc.
Qed.

Lemma component_snoc (c : str) :
  component c -> exists c' x, c = c' ++ [x] /\ x <> PosixPath.sep /\ PosixPath.sep ∉ c'.
Proof.
  intros [Hne Hsep]. destruct (exists_last Hne) as (c' & y & ->).
  exists c', y. split; [done|].
  apply not_elem_of_app in Hsep as [Hc Hy].
  split; [|done]. intros ->. apply Hy. by apply list_elem_of_singleton.
Qed.

(** The path of a directory below the root ends in a character that is not
    the separator. *)
Lemma path_of_last (cs : list str) :
  Forall component cs -> cs <> [] ->
  exists s x, path_of cs = s ++ [x] /\ x <> PosixPath.sep.
Proof.
  intros Hcs Hne. destruct (exists_last Hne) as (cs' & c & ->).
  rename cs' into cs. apply Forall_app in Hcs as [_ Hc]. rewrite Forall_singleton in Hc.
  destruct (component_snoc c Hc) as (c' & x & -> & Hx & _).
  exists (path_of cs ++ PosixPath.sep :: c'), x.
  split; [|done]. rewrite path_of_snoc. by rewrite <- app_assoc.
Qed.

Lemma dirname_entry (cs : list str) (f : str) :
  Forall component cs -> PosixPath.sep ∉ f ->
  PosixPath.dirname (entry_of cs f) = dir_of cs.
Proof.
  intros Hcs Hf. unfold PosixPath.dirname, entry_of.
  rewrite (rfind1_last _ _ _ Hf).
  replace (take (S (length (path_of cs))) (path_of cs ++ PosixPath.sep :: f))
    with (path_of cs ++ [PosixPath.sep]).
  2:{ change (PosixPath.sep :: f) with ([PosixPath.sep] ++ f).
      rewrite app_assoc.
      replace (S (length (path_of cs))) with (length (path_of cs ++ [PosixPath.sep]))
        by (rewrite length_app; simpl; lia).
      by rewrite take_app_length. }
  destruct cs as [|c cs]; [done|].
  destruct (path_of_last (c :: cs) Hcs) as (s & x & Hs & Hx); [done|].
  unfold dir_of. rewrite Hs.
  assert (Py.truthy ((s ++ [x]) ++ [PosixPath.sep]) = true) as ->
    by (by destruct s).
  rewrite bool_decide_eq_false_2.
  - simpl. rewrite rstrip_snoc_same. by apply rstrip_snoc_other.
  - intros Heq.
    assert (x ∈ (s ++ [x]) ++ [PosixPath.sep]) as Hin
      by (apply elem_of_app; left; apply elem_of_app; right; by apply list_elem_of_singleton).
    rewrite Heq in Hin. apply elem_of_replicate_inv in Hin. done.
Qed.

(** One step up from a directory below the root, as the loop of
    [find_dir_recursive] computes it. *)
Lemma parent_of_snoc (cs : list str) (c : str) :
  Forall component cs -> component c ->
  PosixPath.dirname (Py.slice_init (path_of (cs ++ [c]))) = dir_of cs.
Proof.
  intros Hcs Hc.
  destruct (component_snoc c Hc) as (c' & x & -> & _ & Hc').
  rewrite path_of_snoc.
  replace (path_of cs ++ PosixPath.sep :: c' ++ [x])
    with ((path_of cs ++ PosixPath.sep :: c') ++ [x])
    by (by rewrite <- app_assoc).
  rewrite slice_init_snoc. by apply (dirname_entry cs c').
Qed.

Lemma join_below_root (cs : list str) (m : str) :
  Forall component cs -> cs <> [] -> Py.startswith PosixPath.sep m = false ->
  PosixPath.join (path_of cs) m = entry_of cs m.
Proof.
  intros Hcs Hne Hm. unfold PosixPath.join, entry_of. rewrite Hm.
  destruct (path_of_last cs Hcs Hne) as (s & x & Hs & Hx). rewrite Hs.
  assert (Py.truthy (s ++ [x]) = true) as -> by (by destruct s).
  unfold Py.endswith. rewrite last_snoc.
  destruct (Ascii.eqb_spec x PosixPath.sep); done.
Qed.

Lemma marked_join (env : Env) (cs : list str) :
  Forall component cs -> cs <> [] ->
  existsb (fun path => path_exists env (PosixPath.join (path_of cs) path)) markers
  = marked env cs.
Proof.
  intros Hcs Hne. unfold marked, markers. simpl.
  by rewrite !join_below_root.
Qed.

Lemma levels_upto_snoc (n : nat) (cs : list str) (c : str) :
  n <= length cs -> levels_upto n (cs ++ [c]) = levels_upto n cs.
Proof.
  induction n as [|n IH]; intros Hn; simpl; [done|].
  rewrite IH by lia. f_equal.
  rewrite take_app_le by lia. done.
Qed.

Lemma levels_snoc (cs : list str) (c : str) :
  levels (cs ++ [c]) = (cs ++ [c]) :: levels cs.
Proof.
  unfold levels. rewrite length_app. simpl.
  replace (length cs + 1) with (S (length cs)) by lia. simpl.
  rewrite levels_upto_snoc by lia. f_equal.
  replace (S (length cs)) with (length (cs ++ [c])) by (rewrite length_app; simpl; lia).
  by rewrite firstn_all.
Qed.

Lemma dir_of_nonempty (cs : list str) : dir_of cs <> [].
Proof. by destruct cs. Qed.

Lemma find_dir_loop_S (env : Env) (fuel : nat) (base_dir : str) (targets : list str) :
  find_dir_loop env (S fuel) base_dir targets
  = if bool_decide (PosixPath.dirname (Py.slice_init base_dir) = [])
    then Some None
    else if existsb (fun path => path_exists env (PosixPath.join base_dir path)) targets
    then Some (Some base_dir)
    else find_dir_loop env fuel (PosixPath.dirname (Py.slice_init base_dir)) targets.
Proof. reflexivity. Qed.

(** The loop of [find_dir_recursive], started in the directory [cs], stops
    at the nearest marked level below the root. *)
Lemma find_dir_loop_levels (env : Env) (cs : list str) :
  Forall component cs ->
  forall fuel, length (dir_of cs) < fuel ->
  find_dir_loop env fuel (dir_of cs) markers
  = Some (dir_of <$> List.find (marked env) (levels cs)).
Proof.
  induction cs as [|c cs IH] using rev_ind; intros Hcs fuel Hfuel.
  - destruct fuel; [simpl in Hfuel; lia|]. done.
  - apply Forall_app in Hcs as [Hcs Hc]. rewrite Forall_singleton in Hc.
    destruct fuel; [lia|].
    assert (dir_of (cs ++ [c]) = path_of (cs ++ [c])) as Hd by (by destruct cs).
    rewrite Hd in *. rewrite find_dir_loop_S.
    rewrite (parent_of_snoc cs c Hcs Hc).
    rewrite bool_decide_eq_false_2 by apply dir_of_nonempty.
    rewrite (marked_join env (cs ++ [c])).
    2:{ apply Forall_app; split; [done|by apply Forall_singleton]. }
    2:{ by destruct cs. }
    rewrite levels_snoc. simpl.
    destruct (marked env (cs ++ [c])) eqn:Hm.
    + simpl. by rewrite Hd.
    + apply IH; [done|].
      rewrite path_of_snoc, length_app in Hfuel. simpl in Hfuel.
      destruct (component_snoc c Hc) as (c' & x & -> & _).
      rewrite length_app in Hfuel. simpl in Hfuel.
      destruct cs; simpl in *; lia.
Qed.

(** [find_dir_recursive] returns: its loop never runs out of turns. *)
Lemma find_dir_loop_total (env : Env) (targets : list str) (fuel : nat) :
  forall base_dir, length base_dir < fuel ->
  is_Some (find_dir_loop env fuel base_dir targets).
Proof.
  induction fuel as [|fuel IH]; intros base_dir Hlt; [lia|].
  rewrite find_dir_loop_S. case_bool_decide as Hp; [by eexists|].
  destruct (existsb _ targets); [by eexists|].
  apply IH.
  pose proof (dirname_length (Py.slice_init base_dir)) as Hd.
  rewrite slice_init_length in Hd.
  destruct base_dir as [|x b]; [by destruct Hp|]. simpl in *. lia.
Qed.

(** ** Workspace resolution *)

(** [find_dir_recursive] on a directory below the root, or the root. *)
Lemma find_dir_recursive_levels (env : Env) (cs : list str) :
  Forall component cs ->
  find_dir_recursive env (dir_of cs) markers
  = dir_of <$> List.find (marked env) (levels cs).
Proof.
  intros Hcs. unfold find_dir_recursive.
  rewrite (find_dir_loop_levels env cs Hcs); [done|lia].
Qed.

(** C5, as the code has it: for a file [/c1/.../cn/f], with no entry for its
    directory in the cache, [find_workspace_directory] returns the nearest
    of [/c1/.../cn], ..., [/c1] that directly contains [Gemfile] or [.git]
    (the root [/] itself is not looked into), and the file's directory
    [/c1/.../cn] when none does; the result is stored in the cache under
    the file's directory. *)
Theorem find_workspace_directory_below_root
    (env : Env) (cache : gmap str str) (cs : list str) (f : str) :
  Forall component cs -> PosixPath.sep ∉ f ->
  cache !! dir_of cs = None ->
  Source.find_workspace_directory env cache (entry_of cs f)
  = (Some (workspace_below_root env cs),
     <[dir_of cs := workspace_below_root env cs]> cache).
Proof.
  intros Hcs Hf Hcache. unfold Source.find_workspace_directory.
  rewrite (dirname_entry cs f Hcs Hf). unfold Py.int_eq_str.
  rewrite Hcache.
  change ["Gemfile" : str; ".git" : str] with markers.
  rewrite (find_dir_recursive_levels env cs Hcs).
  unfold workspace_below_root.
  destruct (List.find (marked env) (levels cs)) as [a|]; simpl; [|done].
  assert (Py.truthy (dir_of a) = true) as -> by (by destruct a).
  done.
Qed.

Lemma find_workspace_directory_below_root_witness :
  Source.find_workspace_directory env_proj ∅ (entry_of proj_lib "a.rb")
  = (Some (workspace_below_root env_proj proj_lib),
     <[dir_of proj_lib := workspace_below_root env_proj proj_lib]> ∅).
Proof.
  apply find_workspace_directory_below_root.
  - by_compute.
  - by_compute.
  - reflexivity.
Defined.

Example find_workspace_directory_proj :
  (Source.find_workspace_directory env_proj ∅ "/home/me/proj/lib/a.rb").1
  = Some ("/home/me/proj" : str).
Proof. vm_compute. reflexivity. Qed.

(** C5, as the specification states it, fails: with a [.git] in the root and
    no marker in [/a], the workspace of [/a/f.rb] is [/a], where a walk that
    reaches the root gives [/]. *)
Lemma find_workspace_directory_skips_root :
  (Source.find_workspace_directory env_root_git ∅ (entry_of ["a" : str] "f.rb")).1
    = Some ("/a" : str)
  /\ workspace_to_root env_root_git ["a" : str] = "/"
  /\ (Source.find_workspace_directory env_root_git ∅ (entry_of ["a" : str] "f.rb")).1
    <> Some (workspace_to_root env_root_git ["a" : str]).
Proof. vm_compute. repeat split; congruence. Qed.

(** C4: the guard [len(file_dir) == ''] compares a number with a string and
    never holds, so a path without a directory part is not answered with
    [None]: [find_dir_recursive] is called (it returns [None] at once), and
    the empty string is returned and cached. *)
Theorem find_workspace_directory_no_directory (env : Env) :
  PosixPath.dirname "foo.rb" = ""
  /\ Source.find_workspace_directory env ∅ "foo.rb"
     = (Some ("" : str), <[("" : str) := ("" : str)]> ∅)
  /\ Source.find_workspace_directory env ∅ ""
     = (Some ("" : str), <[("" : str) := ("" : str)]> ∅)
  /\ (Source.find_workspace_directory env ∅ "foo.rb").1 <> None.
Proof. repeat split; try reflexivity. discriminate. Qed.

(** ** The completion position *)

Lemma star_dollar_cons (c : ascii) (t : str) :
  Re.star_dollar (c :: t)
  = if Re.word_char c then Re.star_dollar t || Re.at_dollar (c :: t)
    else Re.at_dollar (c :: t).
Proof. reflexivity. Qed.

(** A run of class characters up to the end of the string, or up to its
    final newline, matches. *)
Lemma star_dollar_token (tok tail : str) :
  Forall (fun c => Re.word_char c = true) tok ->
  tail = [] \/ tail = [Py.nl] ->
  Re.star_dollar (tok ++ tail) = true.
Proof.
  intros Htok Htail. induction Htok as [|c tok Hc _ IH].
  - by destruct Htail as [-> | ->].
  - rewrite <- app_comm_cons, star_dollar_cons, Hc, IH. done.
Qed.

(** No match starts before a character outside the class, unless that
    character is the final newline. *)
Lemma star_dollar_blocked (q : str) (x : ascii) (t : str) :
  Re.word_char x = false -> (x = Py.nl -> t <> []) ->
  Re.star_dollar (q ++ x :: t) = false.
Proof.
  intros Hx Hnl. induction q as [|c q IH].
  - simpl app. rewrite star_dollar_cons, Hx.
    destruct t as [|d t]; [|done].
    simpl. destruct (Ascii.eqb_spec x Py.nl) as [->|]; [by destruct Hnl|done].
  - rewrite <- app_comm_cons, star_dollar_cons, IH.
    assert (Re.at_dollar (c :: q ++ x :: t) = false) as -> by (by destruct q).
    by destruct (Re.word_char c).
Qed.

Lemma search_tail_unfold (pos : nat) (rest : str) :
  Re.search_tail pos rest
  = if Re.star_dollar rest then Some pos
    else match rest with [] => None | _ :: t => Re.search_tail (S pos) t end.
Proof. by destruct rest. Qed.

(** The search stops at the first offset where the pattern matches. *)
Lemma search_tail_skip (pre rest : str) :
  Re.star_dollar rest = true ->
  (forall x, last pre = Some x ->
     Re.word_char x = false /\ (x = Py.nl -> rest <> [])) ->
  forall pos, Re.search_tail pos (pre ++ rest) = Some (pos + length pre).
Proof.
  intros Hrest. induction pre as [|c pre IH]; intros Hlast pos.
  - simpl. rewrite search_tail_unfold, Hrest. f_equal. lia.
  - rewrite search_tail_unfold.
    assert (exists x, last (c :: pre) = Some x) as [x Hl].
    { destruct (last (c :: pre)) eqn:E; [by eexists|by apply last_None in E]. }
    destruct (Hlast x Hl) as [Hx Hnl].
    apply last_Some in Hl as [q Hq].
    rewrite Hq at 1. rewrite <- app_assoc. simpl app.
    rewrite (star_dollar_blocked q x rest Hx Hnl).
    cbn [app]. rewrite IH.
    + f_equal. simpl. lia.
    + intros y Hy. apply Hlast. by destruct pre.
Qed.

(** The pattern can match nothing, at the end of the string at the latest:
    the search never fails. *)
Lemma search_tail_is_Some (rest : str) (pos : nat) :
  is_Some (Re.search_tail pos rest).
Proof.
  revert pos. induction rest as [|c rest IH]; intros pos.
  - by eexists.
  - rewrite search_tail_unfold. destruct (Re.star_dollar _); [by eexists|apply IH].
Qed.

(** C9, as the code has it: the input being [pre ++ tok], or
    [pre ++ tok ++ "\n"], where [tok] is the longest run of letters, digits,
    [_], [?] and [!] at the end ([pre] does not end in such a character),
    [get_complete_position] returns the offset at which [tok] starts. When
    [tok] is empty this is the offset of the end of [pre], and in no case is
    it [-1]. *)
Theorem get_complete_position_token (context : Context) (pre tok tail : str) :
  input context = pre ++ tok ++ tail ->
  Forall (fun c => Re.word_char c = true) tok ->
  (forall x, last pre = Some x -> Re.word_char x = false) ->
  (tail = [] /\ last (pre ++ tok) <> Some Py.nl) \/ tail = [Py.nl] ->
  Source.get_complete_position context = Z.of_nat (length pre)
  /\ Source.get_complete_position context <> (-1)%Z.
Proof.
  intros Hin Htok Hpre Htail.
  assert (Source.get_complete_position context = Z.of_nat (length pre)) as E.
  { unfold Source.get_complete_position. rewrite Hin.
    rewrite search_tail_skip; [done| |].
    - apply star_dollar_token; [done|]. destruct Htail as [[-> _]| ->]; auto.
    - intros x Hx. split; [by apply Hpre|].
      intros -> Hnil. apply app_eq_nil in Hnil as [-> ->].
      destruct Htail as [[_ Hl]|?]; [|done].
      rewrite app_nil_r in Hl. done. }
  split; [done|]. rewrite E. lia.
Qed.

Lemma get_complete_position_token_witness :
  Source.get_complete_position
    {| input := "foo.ba"; position_1 := 1; complete_position := 0; bufpath := "" |}
  = 4%Z
  /\ Source.get_complete_position
       {| input := "foo.ba"; position_1 := 1; complete_position := 0; bufpath := "" |}
     <> (-1)%Z.
Proof.
  apply (get_complete_position_token _ ("foo." : str) ("ba" : str) []).
  - reflexivity.
  - by_compute.
  - intros x [= <-]. reflexivity.
  - left. split; [reflexivity|]. vm_compute. congruence.
Defined.

(** On every input the result is an offset into the input, never [-1]. *)
Lemma get_complete_position_nonneg (context : Context) :
  (0 <= Source.get_complete_position context)%Z.
Proof.
  unfold Source.get_complete_position.
  destruct (search_tail_is_Some (input context) 0) as [k ->]. lia.
Qed.

(** C9, as the specification states it, fails: [foo.] ends in no token, and
    the result is [4], the length of the input, not [-1]. *)
Lemma get_complete_position_no_sentinel :
  last ("foo." : str) = Some "."%char
  /\ Re.word_char "." = false
  /\ Source.get_complete_position
       {| input := "foo."; position_1 := 1; complete_position := 0; bufpath := "" |}
     = 4%Z
  /\ Source.get_complete_position
       {| input := "foo."; position_1 := 1; complete_position := 0; bufpath := "" |}
     <> (-1)%Z.
Proof. vm_compute. repeat split; congruence. Qed.

(** ** The port announcement *)

Lemma literal_Some (lit s r : str) : Re.literal lit s = Some r -> s = lit ++ r.
Proof.
  revert s. induction lit as [|a lit IH]; intros s H; simpl in H.
  - by injection H as ->.
  - destruct s as [|b s]; [done|].
    destruct (Ascii.eqb_spec a b) as [->|]; [|done].
    by rewrite (IH s H).
Qed.

Lemma literal_app (lit r : str) : Re.literal lit (lit ++ r) = Some r.
Proof. induction lit as [|a lit IH]; simpl; [done|]. by rewrite Ascii.eqb_refl. Qed.

Lemma digits_all (s : str) : Forall (fun c => Py.is_digit c = true) (Re.digits s).
Proof.
  induction s as [|c s IH]; simpl; [constructor|].
  destruct (Py.is_digit c) eqn:E; by constructor.
Qed.

Lemma port_at_announces (s ds : str) : Re.port_at s = Some ds -> announces s.
Proof.
  unfold Re.port_at. destruct (Re.literal "PORT=" s) as [rest|] eqn:Hl; [|done].
  apply literal_Some in Hl as ->.
  destruct rest as [|d rest]; [done|]. simpl.
  destruct (Py.is_digit d) eqn:Hd; [|done]. intros _.
  by exists [], d, rest.
Qed.

Lemma port_at_literal (d : ascii) (b : str) :
  Py.is_digit d = true -> is_Some (Re.port_at ("PORT=" ++ d :: b)).
Proof.
  intros Hd. unfold Re.port_at. rewrite literal_app. simpl. rewrite Hd. by eexists.
Qed.

Lemma search_port_unfold (line : str) :
  Re.search_port line
  = match Re.port_at line with
    | Some ds => Some ds
    | None => match line with [] => None | _ :: t => Re.search_port t end
    end.
Proof. by destruct line. Qed.

(** The search succeeds on the lines that carry an announcement, and on no
    other. *)
Lemma search_port_announces (line : str) :
  is_Some (Re.search_port line) <-> announces line.
Proof.
  split.
  - induction line as [|c line IH]; rewrite search_port_unfold.
    + destruct (Re.port_at []) eqn:E; [|by intros [? ?]].
      intros _. by apply port_at_announces in E.
    + destruct (Re.port_at (c :: line)) eqn:E.
      * intros _. by apply port_at_announces in E.
      * intros H. destruct (IH H) as (a & d & b & -> & Hd).
        by exists (c :: a), d, b.
  - intros (a & d & b & -> & Hd). induction a as [|c a IH].
    + rewrite search_port_unfold, app_nil_l.
      destruct (port_at_literal d b Hd) as [ds ->]. by eexists.
    + rewrite search_port_unfold.
      destruct (Re.port_at _); [by eexists|]. exact IH.
Qed.

Lemma search_port_None (line : str) :
  Re.search_port line = None <-> ~ announces line.
Proof.
  rewrite <- search_port_announces. rewrite <- eq_None_not_Some. done.
Qed.

Lemma digits_app (ds b : str) :
  Forall (fun c => Py.is_digit c = true) ds -> no_digit_ahead b ->
  Re.digits (ds ++ b) = ds.
Proof.
  intros Hds Hb. induction Hds as [|c ds Hc _ IH]; simpl.
  - destruct b as [|x b]; [done|]. simpl in *. by rewrite Hb.
  - by rewrite Hc, IH.
Qed.

Lemma digits_split (s : str) :
  s = Re.digits s ++ drop (length (Re.digits s)) s
  /\ no_digit_ahead (drop (length (Re.digits s)) s).
Proof.
  induction s as [|x s [IH1 IH2]]; simpl; [done|].
  destruct (Py.is_digit x) eqn:Hx; simpl; [|done].
  split; [by f_equal|done].
Qed.

(** No match starts in what precedes a [PORT=], unless it ends there too:
    the character after the [PORT=] of such a match would be one of
    [P], [O], [R], [T], [=]. *)
Lemma port_at_overlap (c : ascii) (a tail : str) :
  ~ announces (c :: a) -> Re.port_at (c :: a ++ "PORT=" ++ tail) = None.
Proof.
  intros Hna. destruct (Re.port_at _) as [ds|] eqn:E; [|done].
  exfalso. unfold Re.port_at in E.
  destruct (Re.literal "PORT=" _) as [rest|] eqn:Hl; [|done].
  apply literal_Some in Hl.
  destruct rest as [|d rest]; [done|].
  simpl in E. destruct (Py.is_digit d) eqn:Hd; [|done]. clear E.
  simpl in Hl.
  do 4 (destruct a as [|? a]; [simpl in Hl; congruence|]).
  destruct a as [|x5 a]; simpl in Hl.
  - injection Hl as -> -> -> -> -> <- _. done.
  - injection Hl as -> -> -> -> -> -> _.
    apply Hna. by exists [], d, a.
Qed.

Lemma announces_cons (c : ascii) (a : str) : announces a -> announces (c :: a).
Proof. intros (a0 & d & b & -> & Hd). by exists (c :: a0), d, b. Qed.

(** The search returns the first announcement of the line. *)
Lemma search_port_first (line ds : str) :
  first_announcement line ds -> Re.search_port line = Some ds.
Proof.
  intros (a & b & -> & Hna & Hne & Hds & Hb).
  induction a as [|c a IH]; rewrite search_port_unfold.
  - rewrite app_nil_l. unfold Re.port_at.
    rewrite literal_app, (digits_app ds b Hds Hb). by destruct ds.
  - rewrite <- app_comm_cons, (port_at_overlap c a _ Hna).
    apply IH. intros H. by apply Hna, announces_cons.
Qed.

(** What the search returns is the first announcement of the line. *)
Lemma search_port_Some (line ds : str) :
  Re.search_port line = Some ds -> first_announcement line ds.
Proof.
  induction line as [|c line IH]; rewrite search_port_unfold.
  - done.
  - destruct (Re.port_at (c :: line)) as [ds'|] eqn:E.
    + intros [= ->]. unfold Re.port_at in E.
      destruct (Re.literal "PORT=" (c :: line)) as [rest|] eqn:Hl; [|done].
      apply literal_Some in Hl.
      assert (Re.digits rest = ds) as Hds
        by (destruct (Re.digits rest); [done|congruence]).
      destruct (digits_split rest) as [Hrest Hahead]. rewrite Hds in *.
      exists [], (drop (length ds) rest). rewrite app_nil_l, <- Hrest.
      split; [done|]. split.
      { intros (a0 & d & b0 & H0 & _). by destruct a0. }
      split; [intros ->; by rewrite <- Hds in E|].
      split; [rewrite <- Hds; apply digits_all|done].
    + intros H. destruct (IH H) as (a & b & -> & Hna & Hne & Hds & Hb).
      exists (c :: a), b. repeat split; try done.
      intros (a0 & d & b0 & H0 & Hd). destruct a0 as [|c0 a0].
      * rewrite app_nil_l in H0.
        assert (is_Some (Re.port_at (c :: a ++ "PORT=" ++ ds ++ b))) as [? HS].
        { rewrite app_comm_cons, H0, <- app_assoc. simpl app.
          by apply (port_at_literal d). }
        congruence.
      * injection H0 as -> ->. apply Hna. by exists a0, d, b0.
Qed.

(** ** Starting and stopping the server *)

Lemma read_port_cons (line : str) (rest : list str) (output : str) :
  Server.read_port (line :: rest) output
  = if negb (Py.truthy line)
    then (Raise (ServerError (Server.failure_message output)), rest)
    else match Re.search_port line with
         | Some group1 =>
             match int_of_str group1 with
             | Ret p => (Ret p, rest)
             | Raise e => (Raise e, rest)
             end
         | None => Server.read_port rest (output ++ line)
         end.
Proof. reflexivity. Qed.

Lemma int_of_str_short (ds : str) :
  length ds <= int_max_str_digits -> int_of_str ds = Ret (Py.int_of_digits ds).
Proof.
  intros H. unfold int_of_str. by rewrite (proj2 (Nat.ltb_ge _ _) H).
Qed.

Lemma int_of_str_Ret (ds : str) (p : N) :
  int_of_str ds = Ret p -> p = Py.int_of_digits ds.
Proof.
  unfold int_of_str. destruct (_ <? _); [done|]. by intros [= <-].
Qed.

Lemma preamble_skipped (line : str) (rest : list str) (output : str) :
  preamble line ->
  Server.read_port (line :: rest) output = Server.read_port rest (output ++ line).
Proof.
  intros [Hne Hna]. rewrite read_port_cons.
  apply search_port_None in Hna. rewrite Hna. by destruct line.
Qed.

(** The loop skips the lines before the announcement and stops at it. *)
Lemma read_port_found (pre : list str) (l : str) (rest : list str) (ds output : str) :
  Forall preamble pre -> Re.search_port l = Some ds ->
  length ds <= int_max_str_digits ->
  Server.read_port (pre ++ l :: rest) output = (Ret (Py.int_of_digits ds), rest).
Proof.
  intros Hpre Hl Hlen. revert output.
  induction Hpre as [|x pre Hx _ IH]; intros output.
  - rewrite app_nil_l, read_port_cons, Hl, (int_of_str_short ds Hlen).
    destruct l; [done|done].
  - rewrite <- app_comm_cons, (preamble_skipped _ _ _ Hx). apply IH.
Qed.

(** Without an announcement the loop reads to the end of the stream and
    fails with all it has read. *)
Lemma read_port_eof (pre : list str) (output : str) :
  Forall preamble pre ->
  Server.read_port pre output
  = (Raise (ServerError (Server.failure_message (output ++ concat pre))), []).
Proof.
  intros Hpre. revert output.
  induction Hpre as [|x pre Hx _ IH]; intros output.
  - simpl. by rewrite app_nil_r.
  - rewrite (preamble_skipped _ _ _ Hx), IH. simpl. by rewrite <- app_assoc.
Qed.

Lemma occurs_in_concat (l : str) (lines : list str) :
  l ∈ lines -> occurs_in l (concat lines).
Proof.
  intros Hin. apply list_elem_of_split in Hin as (l1 & l2 & ->).
  exists (concat l1), (concat l2). by rewrite concat_app.
Qed.

Lemma occurs_in_failure_message (l output : str) :
  occurs_in l output -> occurs_in l (Server.failure_message output).
Proof.
  intros (a & b & ->). unfold Server.failure_message.
  destruct (Py.truthy (a ++ l ++ b)).
  - exists ("Failed to start server" ++ ":" ++ [Py.nl] ++ a), b.
    by rewrite <- !app_assoc.
  - exists ("Failed to start server" ++ a), b. by rewrite <- !app_assoc.
Qed.

(** [start], once the child is spawned, is the loop over its output. *)
Lemma start_spawned (env : Env) (self : Server.t) (w : World) (lines : list str) :
  spawn_output env (length (children w)) (Server.command self) (Server.args self)
  = Some lines ->
  Server.start env self w
  = let h := length (children w) in
    match Server.read_port lines [] with
    | (Raise e, rest) =>
        (Raise e, Server.set_proc (Some h) self, after_spawn self w rest)
    | (Ret p, rest) =>
        (Ret tt, Server.set_port (Some p) (Server.set_proc (Some h) self),
         after_spawn self w rest)
    end.
Proof.
  intros Hs. unfold Server.start, Server.popen. rewrite Hs. cbn [children].
  rewrite list_lookup_middle by done. cbn [ch_stdout].
  assert (forall rest,
    on_child (with_stdout rest) (length (children w))
      {| children := children w ++
           [{| ch_command := Server.command self; ch_args := Server.args self;
               ch_stdout := lines; ch_closed := false; ch_killed := false |}];
         reports := reports w |}
    = after_spawn self w rest) as Hw.
  { intros rest. unfold on_child, after_spawn. cbn [children reports]. f_equal.
    rewrite <- (Nat.add_0_r (length (children w))) at 1.
    by rewrite alter_app_r. }
  change (Server.read_port lines "") with (Server.read_port lines []).
  destruct (Server.read_port lines []) as [[p|e] rest]; by rewrite Hw.
Qed.

Lemma failure_message_explicit (output : str) :
  Server.failure_message output
  = "Failed to start server"
    ++ match output with
       | [] => []
       | _ :: _ => ":" ++ [Py.nl] ++ output
       end.
Proof. by destruct output. Qed.

(** C3, as the code has it: the child printing [lines], [start] skips the
    lines that carry no [PORT=<digits>] up to the first line [l] that does;
    when the digits of its first announcement are at most 4300, [start]
    records their number as the port (the handle of the child as [proc],
    the other fields as they were) and returns, leaving the lines after [l]
    unread. When the output ends and no line of it carries an announcement,
    [start] raises [ServerError] with the message [Failed to start server],
    followed, when lines were read, by a colon, a newline and these lines;
    every line read occurs in it. *)
Theorem start_port_discovery (env : Env) (self : Server.t) (w : World)
    (lines : list str) :
  spawn_output env (length (children w)) (Server.command self) (Server.args self)
  = Some lines ->
  (forall pre l rest ds,
     lines = pre ++ l :: rest -> Forall preamble pre ->
     first_announcement l ds ->
     length ds <= 4300 ->
     Server.start env self w
     = (Ret tt,
        {| Server.command := Server.command self; Server.args := Server.args self;
           Server.proc := Some (length (children w));
           Server.port := Some (Py.int_of_digits ds);
           Server.host := Server.host self; Server.url := Server.url self |},
        after_spawn self w rest))
  /\ (Forall preamble lines ->
      Server.start env self w
      = (Raise (ServerError
           ("Failed to start server"
            ++ match concat lines with
               | [] => []
               | _ :: _ => ":" ++ [Py.nl] ++ concat lines
               end)),
         {| Server.command := Server.command self; Server.args := Server.args self;
            Server.proc := Some (length (children w));
            Server.port := Server.port self;
            Server.host := Server.host self; Server.url := Server.url self |},
         after_spawn self w [])
      /\ Forall (fun l =>
                   occurs_in l
                     ("Failed to start server"
                      ++ match concat lines with
                         | [] => []
                         | _ :: _ => ":" ++ [Py.nl] ++ concat lines
                         end)) lines).
Proof.
  intros Hs. split.
  - intros pre l rest ds -> Hpre Hl Hlen. apply search_port_first in Hl.
    rewrite (start_spawned env self w _ Hs). cbv zeta.
    by rewrite (read_port_found pre l rest ds [] Hpre Hl Hlen).
  - intros Hpre. rewrite <- failure_message_explicit. split.
    + rewrite (start_spawned env self w _ Hs). cbv zeta.
      by rewrite (read_port_eof lines [] Hpre).
    + apply Forall_forall. intros l Hl.
      by apply occurs_in_failure_message, occurs_in_concat.
Qed.

Lemma preamble_by_search (l : str) :
  Py.truthy l = true -> Re.search_port l = None -> preamble l.
Proof.
  intros Hl Hs. split; [by destruct l|by apply search_port_None].
Qed.

Lemma start_port_discovery_witness :
  Server.start env_boot server0 world0
  = (Ret tt,
     {| Server.command := "solargraph"; Server.args := ["socket" : str];
        Server.proc := Some 0; Server.port := Some 5555%N;
        Server.host := ""; Server.url := "" |},
     after_spawn server0 world0 [])
  /\ Server.start env_no_port server0 world0
     = (Raise (ServerError
          ("Failed to start server:" ++ [Py.nl] ++ "Booting..." ++ [Py.nl]
           ++ "bye" ++ [Py.nl])),
        {| Server.command := "solargraph"; Server.args := ["socket" : str];
           Server.proc := Some 0; Server.port := None;
           Server.host := ""; Server.url := "" |},
        after_spawn server0 world0 []).
Proof.
  split.
  - apply (proj1 (start_port_discovery env_boot server0 world0 _ eq_refl)
             ["Booting..." ++ [Py.nl]] ("PORT=5555" ++ [Py.nl]) [] "5555").
    + reflexivity.
    + repeat constructor; by apply preamble_by_search.
    + by apply search_port_Some.
    + simpl. lia.
  - apply (proj1 (proj2 (start_port_discovery env_no_port server0 world0 _ eq_refl)
                    ltac:(repeat constructor; by apply preamble_by_search))).
Defined.

(** C3, as the specification states it, fails: a line that announces a port
    of 4301 digits matches, but [int] refuses that many digits; [start]
    raises [ValueError] instead of returning, and no port is recorded. *)
Lemma start_long_announcement :
  first_announcement ("PORT=" ++ replicate 4301 "1"%char ++ [Py.nl])
    (replicate 4301 "1"%char)
  /\ match (Server.start env_long_port server0 world0).1.1 with
     | Raise (ValueError _) => True
     | _ => False
     end
  /\ (Server.start env_long_port server0 world0).1.1 <> Ret tt
  /\ Server.port (Server.start env_long_port server0 world0).1.2 = None.
Proof.
  split; [apply search_port_Some; vm_compute; reflexivity|].
  vm_compute. split_and!; [exact I|congruence|reflexivity].
Qed.

(** The scenario of the specification: an analyzer that prints one line and
    then announces port 5555. *)
Example init_scenario :
  exists srv w,
    Server.init env_boot "analyzer" ["socket" : str] world0 = (Ret srv, w)
    /\ Server.is_started srv = true
    /\ Server.port srv = Some 5555%N
    /\ Server.url srv = "http://localhost:5555/".
Proof. eexists _, _. vm_compute. repeat split. Qed.

Example search_port_4567 :
  Re.search_port ("listening, PORT=4567" ++ [Py.nl]) = Some ("4567" : str)
  /\ Py.int_of_digits "4567" = 4567%N.
Proof. split; reflexivity. Qed.

(** C10: when [start], called on a server whose port is not set, raises its
    [ServerError], the port is still not set and [is_started] is false, but
    the handle of the child just spawned is recorded in [proc], and that
    child is neither killed nor is its output closed. *)
Theorem start_failure_keeps_child (env : Env) (self self' : Server.t)
    (w w' : World) (msg : str) :
  Server.port self = None ->
  Server.start env self w = (Raise (ServerError msg), self', w') ->
  Server.port self' = None
  /\ Server.is_started self' = false
  /\ Server.proc self' = Some (length (children w))
  /\ length (children w') = S (length (children w))
  /\ exists c, children w' !! length (children w) = Some c
       /\ ch_killed c = false /\ ch_closed c = false.
Proof.
  intros Hport Hstart.
  destruct (spawn_output env (length (children w)) (Server.command self)
              (Server.args self)) as [lines|] eqn:Hs.
  - rewrite (start_spawned env self w lines Hs) in Hstart. cbv zeta in Hstart.
    destruct (Server.read_port lines []) as [[p|e] rest]; [done|].
    injection Hstart as _ <- <-.
    unfold Server.is_started. cbn. rewrite Hport.
    repeat split; [by rewrite length_app; simpl; lia|].
    eexists. split; [by apply list_lookup_middle|done].
  - unfold Server.start, Server.popen in Hstart. rewrite Hs in Hstart. done.
Qed.

Lemma start_failure_keeps_child_witness :
  Server.port (Server.set_proc (Some 0) server0) = None
  /\ Server.is_started (Server.set_proc (Some 0) server0) = false
  /\ Server.proc (Server.set_proc (Some 0) server0) = Some (length (children world0))
  /\ length (children (after_spawn server0 world0 [])) = S (length (children world0))
  /\ exists c, children (after_spawn server0 world0 []) !! length (children world0) = Some c
       /\ ch_killed c = false /\ ch_closed c = false.
Proof.
  apply (start_failure_keeps_child env_no_port server0 _ world0 _
           ("Failed to start server:" ++ [Py.nl] ++ "Booting..." ++ [Py.nl]
            ++ "bye" ++ [Py.nl])).
  - reflexivity.
  - reflexivity.
Defined.

(** The same failure seen from [start_server]: the error is reported once,
    [False] is returned and the source is as before; the child stays in the
    world, not killed, and no field of the source leads to it. *)
Lemma start_server_failure (env : Env) (self : Source.t) (w : World)
    (lines : list str) :
  Source.is_server_started self = false ->
  Py.truthy (Source.command self) = true ->
  executable env (Source.command self) = true ->
  spawn_output env (length (children w)) (Source.command self) (Source.args self)
  = Some lines ->
  Forall preamble lines ->
  Source.start_server env self w
  = (Ret Source.PyFalse, self,
     print_error (ReportStr (Server.failure_message (concat lines)))
       {| children := children w ++
            [{| ch_command := Source.command self; ch_args := Source.args self;
                ch_stdout := []; ch_closed := false; ch_killed := false |}];
          reports := reports w |}).
Proof.
  intros Hst Hcmd Hex Hs Hpre.
  unfold Source.start_server, Server.init. rewrite Hst, Hcmd, Hex. cbn [negb].
  rewrite (start_spawned env
             {| Server.command := Source.command self;
                Server.args := Source.args self; Server.proc := None;
                Server.port := None; Server.host := ""; Server.url := "" |}
             w lines Hs).
  cbv zeta. by rewrite (read_port_eof lines [] Hpre).
Qed.

(** C7: [stop] on a server without a process changes nothing; otherwise it
    closes the output of the child and kills it, and clears [proc] and
    [port]. After [stop] the server is not started, and a second [stop]
    changes nothing. *)
Theorem stop_idempotent (self : Server.t) (w : World) :
  match Server.proc self with
  | None => Server.stop self w = (self, w)
  | Some h =>
      Server.proc (Server.stop self w).1 = None
      /\ Server.port (Server.stop self w).1 = None
      /\ children (Server.stop self w).2 !! h
         = (fun c => {| ch_command := ch_command c; ch_args := ch_args c;
                        ch_stdout := ch_stdout c; ch_closed := true;
                        ch_killed := true |}) <$> children w !! h
      /\ children (Server.stop self w).2 = alter (kill ∘ close_stdout) h (children w)
      /\ reports (Server.stop self w).2 = reports w
  end
  /\ Server.is_started (Server.stop self w).1 = false
  /\ Server.stop (Server.stop self w).1 (Server.stop self w).2 = Server.stop self w.
Proof.
  unfold Server.stop. destruct (Server.proc self) as [h|] eqn:Hp.
  - cbn. repeat split.
    + rewrite list_alter_alter_eq, list_lookup_alter_eq.
      by destruct (children w !! h).
    + by rewrite list_alter_alter_eq.
  - cbn. rewrite Hp. repeat split. unfold Server.is_started. by rewrite Hp.
Qed.

Example stop_server1 :
  Server.stop server1 world1
  = ({| Server.command := "solargraph"; Server.args := ["socket" : str];
        Server.proc := None; Server.port := None;
        Server.host := "localhost"; Server.url := "http://localhost:5555/" |},
     {| children := [{| ch_command := "solargraph"; ch_args := ["socket" : str];
                        ch_stdout := []; ch_closed := true; ch_killed := true |}];
        reports := [] |}).
Proof. reflexivity. Qed.

Lemma start_server_guard (env : Env) (self : Source.t) (w : World) :
  Source.is_server_started self = true ->
  Source.start_server env self w = (Ret Source.PyTrue, self, w).
Proof. intros H. unfold Source.start_server. by rewrite H. Qed.

(** [Server.start] has no guard of its own: its only caller is the
    constructor, which calls it once, on a server without a process. Were
    it called on a started server, it would spawn a second child and record
    its handle, the first child left running. *)
Lemma start_again_spawns_again :
  Server.init env_boot "solargraph" ["socket" : str] world0 = (Ret server1, world1)
  /\ Server.is_started server1 = true
  /\ length (children world1) = 1
  /\ (Server.start env_boot server1 world1).1.1 = Ret tt
  /\ length (children (Server.start env_boot server1 world1).2) = 2
  /\ Server.proc (Server.start env_boot server1 world1).1.2 = Some 1
  /\ ch_killed <$> children (Server.start env_boot server1 world1).2 !! 0 = Some false
  /\ (Server.start env_boot server1 world1).2 <> world1.
Proof. vm_compute. repeat split; congruence. Qed.

(** ** Candidates *)

Lemma join_comma_list (l : list str) : Py.join ", " l = comma_list l.
Proof.
  destruct l as [|x t]; [done|]. unfold comma_list.
  revert x. induction t as [|y t IH]; intros x.
  - simpl. by rewrite app_nil_r.
  - change (Py.join ", " (x :: y :: t)) with (x ++ ", " ++ Py.join ", " (y :: t)).
    rewrite IH. reflexivity.
Qed.

(** C8: the abbreviation of an item of kind [Method] is its label followed
    by its arguments, separated by a comma and a space, in parentheses; the
    abbreviation of an item of any other kind is its label. *)
Theorem build_abbr_spec (cand : Suggestion) :
  (s_kind cand = "Method"
   /\ Source.build_abbr cand
      = s_label cand ++ "(" ++ comma_list (s_arguments cand) ++ ")")
  \/ (s_kind cand <> "Method" /\ Source.build_abbr cand = s_label cand).
Proof.
  unfold Source.build_abbr. case_bool_decide as Hk.
  - left. split; [done|]. by rewrite join_comma_list.
  - by right.
Qed.

Example build_abbr_method : Source.build_abbr cand_method = "label(a, b)".
Proof. reflexivity. Qed.

Example build_abbr_constant : Source.build_abbr cand_constant = "String".
Proof. reflexivity. Qed.

(** ** Failures of a request *)

(** C2, as the code has it: [request] catches [HTTPError] only. A failure of
    the transport that is an [HTTPError] (a status that is not a success) is
    raised again as a [ClientError] that carries its description; any other
    failure of the transport leaves [request] as it is. *)
Theorem request_wraps_http_error (env : Env) (self : Client.t) (path : str)
    (params : list (str * option pyval)) (e : exn) :
  post_request env (Client.url self) path params = Raise e ->
  Client.request env self path params
  = match e with
    | HTTPError code msg => Raise (ClientError (exn_str (HTTPError code msg)))
    | _ => Raise e
    end.
Proof. intros H. unfold Client.request. rewrite H. by destruct e. Qed.

Lemma request_wraps_http_error_witness :
  Client.request env_boot {| Client.url := "http://localhost:5555/" |} "suggest" []
  = Raise (ClientError "HTTP Error 500: Internal Server Error").
Proof.
  apply (request_wraps_http_error env_boot _ "suggest" []
           (HTTPError 500 "Internal Server Error")).
  reflexivity.
Defined.

(** C2, as the specification states it, fails: a refused connection is a
    [URLError], and leaves [request] as that, not as a [ClientError]. *)
Lemma request_connection_error_escapes :
  Client.request env_refused {| Client.url := "http://localhost:5555/" |} "suggest" []
  = Raise (URLError "[Errno 111] Connection refused")
  /\ match Client.request env_refused {| Client.url := "http://localhost:5555/" |}
             "suggest" [] with
     | Raise (ClientError _) => False
     | _ => True
     end.
Proof. split; [reflexivity|exact I]. Qed.

(** C1, as the specification states it, fails: the server being started and
    the request answered with status 500, [suggest] raises a [ClientError];
    [gather_candidates] raises it too instead of returning the empty list,
    and nothing is reported. *)
Lemma gather_candidates_raises :
  Source.is_server_started source1 = true
  /\ (Source.gather_candidates env_boot source1 context0 world1).1.1
     = Raise (ClientError "HTTP Error 500: Internal Server Error")
  /\ (Source.gather_candidates env_boot source1 context0 world1).1.1 <> Ret []
  /\ reports (Source.gather_candidates env_boot source1 context0 world1).2 = [].
Proof. vm_compute. repeat split; congruence. Qed.

(** X13: with the server started, a response whose status is not [ok] is
    not an error: [gather_candidates] returns the empty list and calls
    [print_error] once, with the response. *)
Lemma gather_candidates_soft_failure (env : Env) (self : Source.t)
    (context : Context) (w : World) (cl : Client.t) (result : Response) :
  Source.is_server_started self = true ->
  Source.client self = Some cl ->
  Client.suggest env cl (Py.join [Py.nl] (getlines env))
    (position_1 context - 1) (complete_position context)
    (Some (bufpath context))
    (Source.find_workspace_directory env (Source.workspace_cache self)
       (bufpath context)).1
    None None
  = Ret result ->
  r_status result <> "ok" ->
  (Source.gather_candidates env self context w).1.1 = Ret []
  /\ reports (Source.gather_candidates env self context w).2
     = reports w ++ [ReportResult result].
Proof.
  intros Hst Hcl Hsug Hstatus. unfold Source.gather_candidates.
  rewrite (start_server_guard env self w Hst). cbn [Source.truthy negb].
  destruct (Source.find_workspace_directory env (Source.workspace_cache self)
              (bufpath context)) as [workspace cache].
  cbn [Source.client Source.set_workspace_cache]. rewrite Hcl.
  cbn [fst snd] in Hsug. rewrite Hsug.
  by rewrite bool_decide_eq_false_2.
Qed.

(** [find_dir_recursive] is the result of its loop: the turns allowed are
    enough for every [base_dir]. *)
Lemma find_dir_recursive_returns (env : Env) (base_dir : str) (targets : list str) :
  find_dir_loop env (S (length base_dir)) base_dir targets
  = Some (find_dir_recursive env base_dir targets).
Proof.
  unfold find_dir_recursive.
  destruct (find_dir_loop_total env targets (S (length base_dir)) base_dir) as [r ->];
    [lia|done].
Qed.

(** * Further properties of the code *)

(** ** Parameters of a request *)

Lemma collect_not_none_cons (k : str) (v : option pyval)
    (d : list (str * option pyval)) :
  collect_not_none ((k, v) :: d) = field k v ++ collect_not_none d.
Proof. by destruct v. Qed.

(** X1: [collect_not_none] keeps the entries that have a value, in their
    order, and nothing else: with [Some] put back around the values, its
    result is the dictionary without its [None] entries. *)
Theorem collect_not_none_filter (d : list (str * option pyval)) :
  (fun kv => (kv.1, Some kv.2)) <$> collect_not_none d
  = filter (fun kv => is_Some kv.2) d.
Proof.
  induction d as [|[k v] d IH]; [done|].
  rewrite collect_not_none_cons. destruct v as [x|].
  - rewrite filter_cons_True by (by eexists).
    change (field k (Some x) ++ collect_not_none d)
      with ((k, x) :: collect_not_none d).
    by rewrite fmap_cons, IH.
  - rewrite filter_cons_False by (by intros [? ?]). done.
Qed.

Lemma collect_not_none_present (d : list (str * option pyval)) :
  collect_not_none (filter (fun kv => is_Some kv.2) d) = collect_not_none d.
Proof.
  induction d as [|[k v] d IH]; [done|]. destruct v as [x|].
  - rewrite filter_cons_True by (by eexists).
    by rewrite !collect_not_none_cons, IH.
  - rewrite filter_cons_False by (by intros [? ?]).
    by rewrite collect_not_none_cons.
Qed.

(** X2: a parameter whose value is [None] has no effect on a request: the
    request made with it is the request made without it. *)
Theorem request_ignores_none (env : Env) (self : Client.t) (path : str)
    (params : list (str * option pyval)) :
  Client.request env self path params
  = Client.request env self path (filter (fun kv => is_Some kv.2) params).
Proof.
  unfold Client.request, post_request. by rewrite collect_not_none_present.
Qed.

Lemma request_no_http_error (env : Env) (self : Client.t) (path : str)
    (params : list (str * option pyval)) (code : N) (msg : str) :
  Client.request env self path params <> Raise (HTTPError code msg).
Proof.
  unfold Client.request.
  destruct (post_request env (Client.url self) path params) as [body|e].
  - destruct (json_loads env body) as [r|e]; [done|by destruct e].
  - by destruct e.
Qed.

(** X3: no operation of the client lets an [HTTPError] out, whatever the
    transport and the decoding of the answer do. *)
Theorem client_no_http_error (env : Env) (self : Client.t) (text : str)
    (line column : Z) (path filename workspace : option str)
    (with_snippets with_all : option pyval) (code : N) (msg : str) :
  Client.suggest env self text line column filename workspace with_snippets with_all
    <> Raise (HTTPError code msg)
  /\ Client.define env self text line column filename workspace
     <> Raise (HTTPError code msg)
  /\ Client.resolve env self path filename workspace <> Raise (HTTPError code msg)
  /\ Client.signify env self text line column filename workspace
     <> Raise (HTTPError code msg).
Proof. repeat split; apply request_no_http_error. Qed.

(** What [suggest] sends: the three fields that always have a value, and of
    the others those that have one. *)
Lemma suggest_sends (env : Env) (self : Client.t) (text : str) (line column : Z)
    (filename workspace : option str) (with_snippets with_all : option pyval) :
  Client.suggest env self text line column filename workspace with_snippets with_all
  = let attempt :=
      match http_post env (Client.url self ++ "suggest")
              ([("text" : str, PStr text); ("line" : str, PInt line);
                ("column" : str, PInt column)]
               ++ field "filename" (PStr <$> filename)
               ++ field "workspace" (PStr <$> workspace)
               ++ field "with_snippets" with_snippets
               ++ field "all" with_all) with
      | Ret result => json_loads env result
      | Raise e => Raise e
      end in
    match attempt with
    | Raise (HTTPError code msg) =>
        Raise (ClientError (exn_str (HTTPError code msg)))
    | r => r
    end.
Proof.
  unfold Client.suggest, Client.request, post_request.
  rewrite !collect_not_none_cons. by rewrite app_nil_r.
Qed.

(** ** The walk to the workspace, on any path *)

Lemma rstrip_prefix (c : ascii) (s : str) : Py.rstrip c s `prefix_of` s.
Proof.
  induction s as [|x t IH]; [done|]. simpl.
  destruct (Py.rstrip c t) as [|y r].
  - destruct (Ascii.eqb x c); [apply prefix_nil|].
    apply prefix_cons, prefix_nil.
  - by apply prefix_cons.
Qed.

Lemma dirname_prefix (p : str) : PosixPath.dirname p `prefix_of` p.
Proof.
  unfold PosixPath.dirname. destruct (_ && _); [|apply prefix_take].
  etrans; [apply rstrip_prefix|apply prefix_take].
Qed.

Lemma parent_prefix (base_dir : str) :
  PosixPath.dirname (Py.slice_init base_dir) `prefix_of` base_dir.
Proof. etrans; [apply dirname_prefix|apply prefix_take]. Qed.

Lemma find_dir_loop_sound (env : Env) (targets : list str) (fuel : nat) :
  forall base_dir d,
  find_dir_loop env fuel base_dir targets = Some (Some d) ->
  d `prefix_of` base_dir
  /\ PosixPath.dirname (Py.slice_init d) <> []
  /\ exists t, t ∈ targets /\ path_exists env (PosixPath.join d t) = true.
Proof.
  induction fuel as [|fuel IH]; intros base_dir d H; [done|].
  rewrite find_dir_loop_S in H. case_bool_decide as Hp; [done|].
  destruct (existsb _ targets) eqn:He.
  - injection H as <-. split; [done|]. split; [done|].
    apply existsb_exists in He as (t & Ht & He).
    exists t. split; [by apply list_elem_of_In|done].
  - destruct (IH _ _ H) as (Hpre & Hne & Ht).
    split; [|done]. etrans; [exact Hpre|apply parent_prefix].
Qed.

(** X4: a directory that [find_dir_recursive] returns is [base_dir] or what
    is left of it after cutting at a separator (a prefix of [base_dir]); it
    is not the top of the path (cut once more it is not empty), and one of
    the targets exists in it. *)
Theorem find_dir_recursive_sound (env : Env) (base_dir d : str)
    (targets : list str) :
  find_dir_recursive env base_dir targets = Some d ->
  d `prefix_of` base_dir
  /\ d <> []
  /\ PosixPath.dirname (Py.slice_init d) <> []
  /\ exists t, t ∈ targets /\ path_exists env (PosixPath.join d t) = true.
Proof.
  unfold find_dir_recursive. intros H.
  destruct (find_dir_loop env _ base_dir targets) as [r|] eqn:E; [|done].
  subst r. destruct (find_dir_loop_sound _ _ _ _ _ E) as (H1 & H2 & H3).
  repeat split; try done. intros ->. by apply H2.
Qed.

Lemma find_dir_recursive_sound_witness :
  ("/home/me/proj" : str) `prefix_of` ("/home/me/proj/lib" : str)
  /\ ("/home/me/proj" : str) <> []
  /\ PosixPath.dirname (Py.slice_init "/home/me/proj") <> []
  /\ exists t, t ∈ markers
       /\ path_exists env_proj (PosixPath.join "/home/me/proj" t) = true.
Proof.
  apply (find_dir_recursive_sound env_proj "/home/me/proj/lib" "/home/me/proj" markers).
  reflexivity.
Defined.

(** X5: on a file system without a marker, the workspace of a file (any
    path, absolute or not) whose directory is not in the cache is the
    directory of the file, and this is what the cache then holds for it. *)
Theorem find_workspace_directory_fallback (env : Env) (cache : gmap str str)
    (filepath : str) :
  (forall d t, t ∈ markers -> path_exists env (PosixPath.join d t) = false) ->
  cache !! PosixPath.dirname filepath = None ->
  Source.find_workspace_directory env cache filepath
  = (Some (PosixPath.dirname filepath),
     <[PosixPath.dirname filepath := PosixPath.dirname filepath]> cache).
Proof.
  intros Hnone Hmiss. unfold Source.find_workspace_directory, Py.int_eq_str.
  rewrite Hmiss. change ["Gemfile" : str; ".git" : str] with markers.
  destruct (find_dir_recursive env (PosixPath.dirname filepath) markers)
    as [d|] eqn:E; [|done].
  unfold find_dir_recursive in E.
  destruct (find_dir_loop env _ (PosixPath.dirname filepath) markers)
    as [r|] eqn:El; [|done].
  subst r. apply find_dir_loop_sound in El as (_ & _ & t & Ht & Hex).
  by rewrite (Hnone d t Ht) in Hex.
Qed.

Lemma find_workspace_directory_fallback_witness :
  Source.find_workspace_directory env_no_exec ∅ "lib/deep/a.rb"
  = (Some (PosixPath.dirname "lib/deep/a.rb"),
     <[PosixPath.dirname "lib/deep/a.rb" := PosixPath.dirname "lib/deep/a.rb"]> ∅).
Proof.
  apply find_workspace_directory_fallback.
  - intros d t _. reflexivity.
  - reflexivity.
Defined.

(** X6: the workspace of a directory is computed once. After a call, a call
    for a file of the same directory returns the same workspace and leaves
    the cache as it is, whatever the file system has become. *)
Theorem find_workspace_directory_memo (env env' : Env) (cache : gmap str str)
    (filepath filepath' : str) :
  PosixPath.dirname filepath' = PosixPath.dirname filepath ->
  Source.find_workspace_directory env'
    (Source.find_workspace_directory env cache filepath).2 filepath'
  = Source.find_workspace_directory env cache filepath.
Proof.
  intros Hdir. unfold Source.find_workspace_directory, Py.int_eq_str.
  rewrite Hdir.
  destruct (cache !! PosixPath.dirname filepath) as [root|] eqn:Hc; cbn [snd].
  - by rewrite Hc.
  - by rewrite lookup_insert_eq.
Qed.

Lemma find_workspace_directory_memo_witness :
  Source.find_workspace_directory env_root_git
    (Source.find_workspace_directory env_proj ∅ "/home/me/proj/lib/a.rb").2
    "/home/me/proj/lib/b.rb"
  = Source.find_workspace_directory env_proj ∅ "/home/me/proj/lib/a.rb".
Proof.
  apply find_workspace_directory_memo. reflexivity.
Defined.

(** X7: [find_workspace_directory] always returns a workspace (never
    [None]), which the cache holds afterwards under the directory of the
    file; no other entry of the cache is added, changed or removed. *)
Theorem find_workspace_directory_cache (env : Env) (cache : gmap str str)
    (filepath : str) :
  cache ⊆ (Source.find_workspace_directory env cache filepath).2
  /\ (exists root,
        (Source.find_workspace_directory env cache filepath).1 = Some root
        /\ (Source.find_workspace_directory env cache filepath).2
             !! PosixPath.dirname filepath = Some root)
  /\ (forall k, k <> PosixPath.dirname filepath ->
        (Source.find_workspace_directory env cache filepath).2 !! k = cache !! k).
Proof.
  unfold Source.find_workspace_directory, Py.int_eq_str.
  destruct (cache !! PosixPath.dirname filepath) as [root|] eqn:Hc; cbn [fst snd].
  - split; [done|]. split; [by exists root|done].
  - split; [by apply insert_subseteq|].
    split; [eexists; split; [done|by rewrite lookup_insert_eq]|].
    intros k Hk. by rewrite lookup_insert_ne.
Qed.

(** ** The server object *)

(** X8: [start] leaves the children already there, the messages reported,
    and the command and arguments of the server as they are, and adds at
    most one child; when [subprocess.Popen] fails it adds none, changes
    nothing and lets the [OSError] out. *)
Theorem start_frame (env : Env) (self : Server.t) (w : World) :
  children w `prefix_of` children (Server.start env self w).2
  /\ length (children (Server.start env self w).2) <= S (length (children w))
  /\ reports (Server.start env self w).2 = reports w
  /\ Server.command (Server.start env self w).1.2 = Server.command self
  /\ Server.args (Server.start env self w).1.2 = Server.args self
  /\ (spawn_output env (length (children w)) (Server.command self)
        (Server.args self) = None ->
      Server.start env self w = (Raise (OSError (Server.command self)), self, w)).
Proof.
  destruct (spawn_output env (length (children w)) (Server.command self)
              (Server.args self)) as [lines|] eqn:Hs.
  - rewrite (start_spawned env self w lines Hs). cbv zeta.
    destruct (Server.read_port lines []) as [[p|e] rest]; cbn;
      (split_and!; [by apply prefix_app_r|rewrite length_app; simpl; lia|done..]).
  - unfold Server.start, Server.popen. rewrite Hs. cbn.
    split_and!; [done|lia|done..].
Qed.

Lemma start_frame_witness :
  Server.start env_popen_fails server0 world0
  = (Raise (OSError (Server.command server0)), server0, world0).
Proof.
  apply (start_frame env_popen_fails server0 world0). reflexivity.
Defined.

Lemma read_port_Ret (lines : list str) :
  forall output p rest,
  Server.read_port lines output = (Ret p, rest) ->
  exists pre l ds,
    lines = pre ++ l :: rest /\ Forall preamble pre
    /\ first_announcement l ds /\ p = Py.int_of_digits ds.
Proof.
  induction lines as [|x lines IH]; intros output p rest H; [done|].
  rewrite read_port_cons in H.
  destruct (Py.truthy x) eqn:Hx; [|done]. cbn [negb] in H.
  destruct (Re.search_port x) as [ds|] eqn:Hs.
  - destruct (int_of_str ds) as [q|e] eqn:Hi; [|done].
    apply int_of_str_Ret in Hi. injection H as <- <-. exists [], x, ds.
    split; [done|]. split; [constructor|]. split; [by apply search_port_Some|done].
  - destruct (IH _ _ _ H) as (pre & l & ds & -> & Hpre & Hl & ->).
    exists (x :: pre), l, ds. split; [done|].
    split; [|done]. constructor; [by apply preamble_by_search|done].
Qed.

Lemma init_Ret (env : Env) (cmd : str) (arguments : list str)
    (w w' : World) (srv : Server.t) :
  Server.init env cmd arguments w = (Ret srv, w') ->
  exists lines pre l rest ds,
    spawn_output env (length (children w)) cmd arguments = Some lines
    /\ lines = pre ++ l :: rest /\ Forall preamble pre
    /\ first_announcement l ds
    /\ srv = {| Server.command := cmd; Server.args := arguments;
                Server.proc := Some (length (children w));
                Server.port := Some (Py.int_of_digits ds);
                Server.host := "localhost";
                Server.url := "http://localhost:"
                              ++ Py.str_of_N (Py.int_of_digits ds) ++ "/" |}
    /\ Server.is_started srv = true
    /\ w' = after_spawn srv w rest.
Proof.
  unfold Server.init. intros H.
  set (self := {| Server.command := cmd; Server.args := arguments;
                  Server.proc := None; Server.port := None;
                  Server.host := ""; Server.url := "" |}) in *.
  destruct (spawn_output env (length (children w)) cmd arguments)
    as [lines|] eqn:Hs.
  - rewrite (start_spawned env self w lines Hs) in H. cbv zeta in H.
    destruct (Server.read_port lines []) as [[p|e] rest] eqn:Hr; [|done].
    destruct (read_port_Ret _ _ _ _ Hr) as (pre & l & ds & -> & Hpre & Hl & ->).
    injection H as <- <-.
    exists (pre ++ l :: rest), pre, l, rest, ds. by split_and!.
  - unfold Server.start, Server.popen in H. cbn in H. by rewrite Hs in H.
Qed.

(** X9: when [Server(command, args)] returns, the child it spawned has
    printed, after lines without an announcement, a line whose first
    announcement is the port recorded; the server is started, its url is
    [http://localhost:<port>/], and the world has this one child more, with
    the lines after the announcement left unread. *)
Theorem init_success (env : Env) (cmd : str) (arguments : list str)
    (w w' : World) (srv : Server.t) :
  Server.init env cmd arguments w = (Ret srv, w') ->
  exists lines pre l rest ds,
    spawn_output env (length (children w)) cmd arguments = Some lines
    /\ lines = pre ++ l :: rest /\ Forall preamble pre
    /\ first_announcement l ds
    /\ srv = {| Server.command := cmd; Server.args := arguments;
                Server.proc := Some (length (children w));
                Server.port := Some (Py.int_of_digits ds);
                Server.host := "localhost";
                Server.url := "http://localhost:"
                              ++ Py.str_of_N (Py.int_of_digits ds) ++ "/" |}
    /\ Server.is_started srv = true
    /\ w' = after_spawn srv w rest.
Proof. apply init_Ret. Qed.

Lemma init_success_witness :
  exists lines pre l rest ds,
    spawn_output env_boot (length (children world0)) "solargraph" ["socket" : str]
    = Some lines
    /\ lines = pre ++ l :: rest /\ Forall preamble pre
    /\ first_announcement l ds
    /\ server1 = {| Server.command := "solargraph"; Server.args := ["socket" : str];
                    Server.proc := Some (length (children world0));
                    Server.port := Some (Py.int_of_digits ds);
                    Server.host := "localhost";
                    Server.url := "http://localhost:"
                                  ++ Py.str_of_N (Py.int_of_digits ds) ++ "/" |}
    /\ Server.is_started server1 = true
    /\ world1 = after_spawn server1 world0 rest.
Proof.
  apply (init_success env_boot "solargraph" ["socket" : str] world0 world1 server1).
  reflexivity.
Defined.

(** X10: [stop] after [Server(command, args)] returned closes and kills the
    child that was spawned and no other; the server is not started any more,
    and keeps its url. *)
Theorem init_stop (env : Env) (cmd : str) (arguments : list str)
    (w w' : World) (srv : Server.t) :
  Server.init env cmd arguments w = (Ret srv, w') ->
  Server.is_started (Server.stop srv w').1 = false
  /\ Server.url (Server.stop srv w').1 = Server.url srv
  /\ children w `prefix_of` children (Server.stop srv w').2
  /\ length (children (Server.stop srv w').2) = S (length (children w))
  /\ (exists c, children (Server.stop srv w').2 !! length (children w) = Some c
        /\ ch_command c = cmd /\ ch_killed c = true /\ ch_closed c = true)
  /\ reports (Server.stop srv w').2 = reports w.
Proof.
  intros H.
  destruct (init_Ret _ _ _ _ _ _ H)
    as (lines & pre & l & rest & ds & _ & _ & _ & _ & -> & _ & ->).
  unfold Server.stop, on_child, after_spawn.
  cbn [Server.proc Server.set_port Server.set_proc Server.url Server.command
       Server.args fst snd children reports].
  rewrite list_alter_alter_eq, alter_app_r_alt, Nat.sub_diag by done.
  split_and!; [done|done|by apply prefix_app_r|rewrite length_app; simpl; lia| |done].
  eexists. split; [by apply list_lookup_middle|done].
Qed.

Lemma init_stop_witness :
  Server.is_started (Server.stop server1 world1).1 = false
  /\ Server.url (Server.stop server1 world1).1 = Server.url server1
  /\ children world0 `prefix_of` children (Server.stop server1 world1).2
  /\ length (children (Server.stop server1 world1).2) = S (length (children world0))
  /\ (exists c, children (Server.stop server1 world1).2 !! length (children world0)
                = Some c
        /\ ch_command c = "solargraph" /\ ch_killed c = true /\ ch_closed c = true)
  /\ reports (Server.stop server1 world1).2 = reports world0.
Proof.
  apply (init_stop env_boot "solargraph" ["socket" : str] world0 world1 server1).
  reflexivity.
Defined.

(** ** Starting the server from the source *)

(** What [start_server] can do to a source that is not started: leave it as
    it is, or record the server that [Server(command, args)] returned. *)
Lemma start_server_inv (env : Env) (self : Source.t) (w : World) :
  Source.is_server_started self = false ->
  (Source.start_server env self w).1.2 = self
  /\ (forall r, (Source.start_server env self w).1.1 = Ret r -> Source.truthy r = false)
  \/ exists srv w',
       Server.init env (Source.command self) (Source.args self) w = (Ret srv, w')
       /\ Source.start_server env self w
          = (Ret Source.PyTrue,
             {| Source.command := Source.command self;
                Source.args := Source.args self;
                Source.is_server_started := true; Source.server := Some srv;
                Source.client := Some {| Client.url := Server.url srv |};
                Source.workspace_cache := Source.workspace_cache self |},
             w').
Proof.
  intros Hst. unfold Source.start_server. rewrite Hst.
  destruct (Py.truthy (Source.command self)); cbn [negb];
    [|left; split; [done|by intros r [= <-]]].
  destruct (executable env (Source.command self)); cbn [negb];
    [|left; split; [done|by intros r [= <-]]].
  destruct (Server.init env (Source.command self) (Source.args self) w)
    as [[srv|e] w'] eqn:Hin.
  - right. by exists srv, w'.
  - left. destruct e; (split; [done|]); intros r Hr; by inversion Hr.
Qed.

(** X11: a start that fails is not cleaned up, and is tried again. When the
    child exits without an announcement, [start_server] reports the failure
    and returns [False], with the source as it was and the child left in the
    world, neither killed nor closed; the next call spawns a second child,
    and on the same failure leaves it behind too. *)
Theorem start_server_failure_leaks (env : Env) (self : Source.t) (w : World)
    (lines1 lines2 : list str) :
  Source.is_server_started self = false ->
  Py.truthy (Source.command self) = true ->
  executable env (Source.command self) = true ->
  spawn_output env (length (children w)) (Source.command self) (Source.args self)
  = Some lines1 ->
  Forall preamble lines1 ->
  spawn_output env (S (length (children w))) (Source.command self) (Source.args self)
  = Some lines2 ->
  Forall preamble lines2 ->
  let left_behind :=
    {| ch_command := Source.command self; ch_args := Source.args self;
       ch_stdout := []; ch_closed := false; ch_killed := false |} in
  let w1 :=
    {| children := children w ++ [left_behind];
       reports := reports w
                  ++ [ReportStr (Server.failure_message (concat lines1))] |} in
  Source.start_server env self w = (Ret Source.PyFalse, self, w1)
  /\ Source.start_server env self w1
     = (Ret Source.PyFalse, self,
        {| children := children w ++ [left_behind; left_behind];
           reports := reports w
                      ++ [ReportStr (Server.failure_message (concat lines1));
                          ReportStr (Server.failure_message (concat lines2))] |}).
Proof.
  intros Hst Hcmd Hex Hs1 Hp1 Hs2 Hp2 left_behind w1. split.
  - by rewrite (start_server_failure env self w lines1).
  - rewrite (start_server_failure env self w1 lines2); try done.
    + unfold print_error, w1. cbn [children reports].
      by rewrite <- !app_assoc.
    + unfold w1. cbn [children]. rewrite length_app. simpl.
      by rewrite Nat.add_1_r.
Qed.

Lemma start_server_failure_leaks_witness :
  Source.start_server env_no_port source0 world0
  = (Ret Source.PyFalse, source0,
     {| children := [{| ch_command := "solargraph"; ch_args := ["socket" : str];
                        ch_stdout := []; ch_closed := false; ch_killed := false |}];
        reports := [ReportStr (Server.failure_message
                                 (concat ["Booting..." ++ [Py.nl]; "bye" ++ [Py.nl]]))] |}).
Proof.
  apply (start_server_failure_leaks env_no_port source0 world0
           ["Booting..." ++ [Py.nl]; "bye" ++ [Py.nl]]
           ["Booting..." ++ [Py.nl]; "bye" ++ [Py.nl]]).
  - reflexivity.
  - reflexivity.
  - reflexivity.
  - reflexivity.
  - repeat constructor; by apply preamble_by_search.
  - reflexivity.
  - repeat constructor; by apply preamble_by_search.
Defined.

(** X12: a source whose consistent fields are so stays so through
    [start_server]; and when [start_server] returns [True] the source is
    started: it has a started server and a client for the url of that
    server. Any other return leaves a source that was not started as it
    was. *)
Theorem start_server_consistent (env : Env) (self : Source.t) (w : World) :
  consistent self ->
  consistent (Source.start_server env self w).1.2
  /\ ((Source.start_server env self w).1.1 = Ret Source.PyTrue ->
      Source.is_server_started (Source.start_server env self w).1.2 = true)
  /\ (Source.is_server_started self = false ->
      (Source.start_server env self w).1.1 <> Ret Source.PyTrue ->
      (Source.start_server env self w).1.2 = self).
Proof.
  intros Hc. destruct (Source.is_server_started self) eqn:Hst.
  - rewrite (start_server_guard env self w Hst). by split_and!.
  - destruct (start_server_inv env self w Hst)
      as [[Hself Hr]|(srv & w' & Hin & ->)].
    + rewrite Hself. split_and!; [done| |done].
      intros Ht. by apply Hr in Ht.
    + cbn [fst snd]. split_and!; [|done|done].
      intros _. exists srv. split_and!; [done|done|].
      by destruct (init_Ret _ _ _ _ _ _ Hin) as (?&?&?&?&?&_&_&_&_&_&?&_).
Qed.

Lemma start_server_consistent_witness :
  consistent (Source.start_server env_boot source0 world0).1.2
  /\ ((Source.start_server env_boot source0 world0).1.1 = Ret Source.PyTrue ->
      Source.is_server_started (Source.start_server env_boot source0 world0).1.2 = true)
  /\ (Source.is_server_started source0 = false ->
      (Source.start_server env_boot source0 world0).1.1 <> Ret Source.PyTrue ->
      (Source.start_server env_boot source0 world0).1.2 = source0).
Proof.
  apply (start_server_consistent env_boot source0 world0).
  intros H. discriminate H.
Defined.

Lemma gather_candidates_soft_failure_witness :
  (Source.gather_candidates env_soft source1 context0 world1).1.1 = Ret []
  /\ reports (Source.gather_candidates env_soft source1 context0 world1).2
     = reports world1 ++ [ReportResult response_err].
Proof.
  apply (gather_candidates_soft_failure env_soft source1 context0 world1
           {| Client.url := "http://localhost:5555/" |} response_err).
  - reflexivity.
  - reflexivity.
  - reflexivity.
  - vm_compute. congruence.
Defined.

(** ** Gathering candidates *)

(** [gather_candidates] once the server is started. *)
Lemma gather_candidates_started (env : Env) (self : Source.t)
    (context : Context) (w : World) (cl : Client.t) :
  Source.is_server_started self = true ->
  Source.client self = Some cl ->
  Source.gather_candidates env self context w
  = let found := Source.find_workspace_directory env (Source.workspace_cache self)
                   (bufpath context) in
    let self := Source.set_workspace_cache found.2 self in
    match Client.suggest env cl (Py.join [Py.nl] (getlines env))
            (position_1 context - 1) (complete_position context)
            (Some (bufpath context)) found.1 None None with
    | Raise e => (Raise e, self, w)
    | Ret result =>
        if negb (bool_decide (r_status result = "ok"))
        then (Ret [], self, print_error (ReportResult result) w)
        else
          (Ret ((fun cand =>
                   {| word := s_insert cand; kind := s_kind cand; dup := 1;
                      abbr := Source.build_abbr cand; info := s_label cand;
                      menu := s_detail cand |}) <$> r_suggestions result),
           self, w)
    end.
Proof.
  intros Hst Hcl. unfold Source.gather_candidates.
  rewrite (start_server_guard env self w Hst). cbn [Source.truthy negb].
  destruct (Source.find_workspace_directory env (Source.workspace_cache self)
              (bufpath context)) as [workspace cache].
  cbn [Source.client Source.set_workspace_cache fst snd]. by rewrite Hcl.
Qed.

(** X14: with the server started and a response of status [ok],
    [gather_candidates] returns one candidate for each suggestion, in the
    order of the response: word, kind, info and menu are the insert, kind,
    label and detail of the suggestion, [dup] is 1 and the abbreviation is
    [build_abbr] of the suggestion; nothing is reported. *)
Theorem gather_candidates_ok (env : Env) (self : Source.t)
    (context : Context) (w : World) (cl : Client.t) (result : Response) :
  Source.is_server_started self = true ->
  Source.client self = Some cl ->
  Client.suggest env cl (Py.join [Py.nl] (getlines env))
    (position_1 context - 1) (complete_position context)
    (Some (bufpath context))
    (Source.find_workspace_directory env (Source.workspace_cache self)
       (bufpath context)).1
    None None
  = Ret result ->
  r_status result = "ok" ->
  exists l,
    (Source.gather_candidates env self context w).1.1 = Ret l
    /\ Forall2 (fun cand c =>
                  describes cand c /\ dup c = 1%Z
                  /\ abbr c = Source.build_abbr cand)
         (r_suggestions result) l
    /\ (Source.gather_candidates env self context w).2 = w.
Proof.
  intros Hst Hcl Hsug Hok.
  rewrite (gather_candidates_started env self context w cl Hst Hcl). cbv zeta.
  rewrite Hsug, bool_decide_eq_true_2 by done. cbn [negb fst snd].
  eexists. split; [done|]. split; [|done].
  apply Forall2_fmap_r, Forall_Forall2_diag, Forall_forall.
  intros cand _. by split_and!.
Qed.

Lemma gather_candidates_ok_witness :
  exists l,
    (Source.gather_candidates env_ok source1 context0 world1).1.1 = Ret l
    /\ Forall2 (fun cand c =>
                  describes cand c /\ dup c = 1%Z
                  /\ abbr c = Source.build_abbr cand)
         (r_suggestions response_ok) l
    /\ (Source.gather_candidates env_ok source1 context0 world1).2 = world1.
Proof.
  apply (gather_candidates_ok env_ok source1 context0 world1
           {| Client.url := "http://localhost:5555/" |} response_ok).
  - reflexivity.
  - reflexivity.
  - reflexivity.
  - reflexivity.
Defined.

(** X15: when the server cannot be launched, because no command is set or
    because the command is not executable, [gather_candidates] returns the
    empty list and leaves the source as it is; no child is spawned, and a
    message is reported in the first case only. *)
Theorem gather_candidates_cannot_launch (env : Env) (self : Source.t)
    (context : Context) (w : World) :
  Source.is_server_started self = false ->
  Source.command self = [] \/ executable env (Source.command self) = false ->
  Source.gather_candidates env self context w
  = (Ret [], self,
     if Py.truthy (Source.command self) then w
     else print_error (ReportStr "No solargraph binary set.") w).
Proof.
  intros Hst Hno. unfold Source.gather_candidates, Source.start_server.
  rewrite Hst. destruct Hno as [Hcmd|Hex].
  - by rewrite Hcmd.
  - destruct (Py.truthy (Source.command self)); [|done]. by rewrite Hex.
Qed.

Lemma gather_candidates_cannot_launch_witness :
  Source.gather_candidates env_boot source_no_command context0 world0
  = (Ret [], source_no_command,
     print_error (ReportStr "No solargraph binary set.") world0)
  /\ Source.gather_candidates env_no_exec source0 context0 world0
     = (Ret [], source0, world0).
Proof.
  split.
  - apply (gather_candidates_cannot_launch env_boot source_no_command context0 world0).
    + reflexivity.
    + left. reflexivity.
  - apply (gather_candidates_cannot_launch env_no_exec source0 context0 world0).
    + reflexivity.
    + right. reflexivity.
Defined.

(** X16: [start_server] handles [ServerError] only. When the command is
    executable but [subprocess.Popen] fails, the [OSError] leaves
    [gather_candidates]; nothing is reported and the source is as it was. *)
Theorem gather_candidates_popen_fails (env : Env) (self : Source.t)
    (context : Context) (w : World) :
  Source.is_server_started self = false ->
  Py.truthy (Source.command self) = true ->
  executable env (Source.command self) = true ->
  spawn_output env (length (children w)) (Source.command self) (Source.args self)
  = None ->
  Source.gather_candidates env self context w
  = (Raise (OSError (Source.command self)), self, w).
Proof.
  intros Hst Hcmd Hex Hs.
  unfold Source.gather_candidates, Source.start_server, Server.init,
    Server.start, Server.popen.
  rewrite Hst, Hcmd, Hex. cbn [negb Server.command Server.args]. by rewrite Hs.
Qed.

Lemma gather_candidates_popen_fails_witness :
  Source.gather_candidates env_popen_fails source0 context0 world0
  = (Raise (OSError (Source.command source0)), source0, world0).
Proof.
  apply (gather_candidates_popen_fails env_popen_fails source0 context0 world0);
    reflexivity.
Defined.

Lemma find_workspace_directory_grows (env : Env) (cache : gmap str str)
    (filepath : str) :
  cache ⊆ (Source.find_workspace_directory env cache filepath).2.
Proof.
  unfold Source.find_workspace_directory, Py.int_eq_str.
  destruct (cache !! PosixPath.dirname filepath) eqn:Hc; cbn [snd]; [done|].
  by apply insert_subseteq.
Qed.

(** The source that [gather_candidates] leaves: the one [start_server]
    leaves, but for the cache of workspaces. *)
Lemma gather_candidates_source (env : Env) (self : Source.t)
    (context : Context) (w : World) :
  exists cache,
    (Source.gather_candidates env self context w).1.2
    = Source.set_workspace_cache cache (Source.start_server env self w).1.2
    /\ Source.workspace_cache (Source.start_server env self w).1.2 ⊆ cache.
Proof.
  unfold Source.gather_candidates.
  destruct (Source.start_server env self w) as [[[r|e] self'] w'] eqn:Hs;
    cbn [fst snd].
  - destruct (Source.truthy r); cbn [negb].
    + pose proof (find_workspace_directory_grows env
                    (Source.workspace_cache self') (bufpath context)) as Hg.
      destruct (Source.find_workspace_directory env _ (bufpath context))
        as [workspace cache].
      exists cache. split; [|done].
      cbn [Source.client Source.set_workspace_cache].
      destruct (Source.client self'); [|done].
      destruct (Client.suggest _ _ _ _ _ _ _ _ _); [|done].
      by destruct (negb _).
    + exists (Source.workspace_cache self'). split; [by destruct self'|done].
  - exists (Source.workspace_cache self'). split; [by destruct self'|done].
Qed.

Lemma start_server_keeps (env : Env) (self : Source.t) (w : World) :
  Source.command (Source.start_server env self w).1.2 = Source.command self
  /\ Source.args (Source.start_server env self w).1.2 = Source.args self
  /\ Source.workspace_cache (Source.start_server env self w).1.2
     = Source.workspace_cache self
  /\ (Source.is_server_started self = true ->
      Source.is_server_started (Source.start_server env self w).1.2 = true).
Proof.
  destruct (Source.is_server_started self) eqn:Hst.
  - by rewrite (start_server_guard env self w Hst).
  - destruct (start_server_inv env self w Hst)
      as [[-> _]|(srv & w' & _ & ->)]; by split_and!.
Qed.

(** X17: what [gather_candidates] keeps of the source, however it ends: the
    command and its arguments; that the server is started, once it is (no
    call resets it); the entries of the cache of workspaces (it only
    grows); and the consistency of the fields. *)
Theorem gather_candidates_keeps (env : Env) (self : Source.t)
    (context : Context) (w : World) :
  Source.command (Source.gather_candidates env self context w).1.2
  = Source.command self
  /\ Source.args (Source.gather_candidates env self context w).1.2
     = Source.args self
  /\ (Source.is_server_started self = true ->
      Source.is_server_started (Source.gather_candidates env self context w).1.2
      = true)
  /\ Source.workspace_cache self
     ⊆ Source.workspace_cache (Source.gather_candidates env self context w).1.2
  /\ (consistent self ->
      consistent (Source.gather_candidates env self context w).1.2).
Proof.
  destruct (gather_candidates_source env self context w) as (cache & -> & Hsub).
  destruct (start_server_keeps env self w) as (Hc & Ha & Hw & Hs).
  rewrite Hw in Hsub. cbn. split_and!; try done.
  intros Hcons.
  destruct (Source.is_server_started self) eqn:Hst.
  - rewrite (start_server_guard env self w Hst). cbn. done.
  - destruct (start_server_inv env self w Hst)
      as [[-> _]|(srv & w' & Hin & ->)]; cbn.
    + unfold consistent. cbn. intros Hst'. congruence.
    + intros _. exists srv. split_and!; [done|done|].
      by destruct (init_Ret _ _ _ _ _ _ Hin) as (?&?&?&?&?&_&_&_&_&_&?&_).
Qed.

Lemma gather_candidates_keeps_witness :
  Source.is_server_started
    (Source.gather_candidates env_boot source1 context0 world1).1.2 = true
  /\ consistent (Source.gather_candidates env_boot source1 context0 world1).1.2.
Proof.
  destruct (gather_candidates_keeps env_boot source1 context0 world1)
    as (_ & _ & Hs & _ & Hc).
  split.
  - apply Hs. reflexivity.
  - apply Hc. intros _. exists server1. split_and!; reflexivity.
Defined.

Lemma build_abbr_prefix (cand : Suggestion) :
  s_label cand `prefix_of` Source.build_abbr cand.
Proof.
  unfold Source.build_abbr. case_bool_decide; [by apply prefix_app_r|done].
Qed.

(** X18: every candidate that [gather_candidates] returns, from whatever
    state and response, has [dup] 1, an abbreviation that begins with its
    info (the label), and, unless its kind is [Method], that is its info. *)
Theorem gather_candidates_shape (env : Env) (self : Source.t)
    (context : Context) (w : World) (l : list Candidate) :
  (Source.gather_candidates env self context w).1.1 = Ret l ->
  Forall (fun c => dup c = 1%Z /\ info c `prefix_of` abbr c
                   /\ (kind c <> "Method" -> abbr c = info c)) l.
Proof.
  unfold Source.gather_candidates.
  destruct (Source.start_server env self w) as [[[r|e] self'] w']; [|done].
  destruct (Source.truthy r); cbn [negb]; [|by intros [= <-]].
  destruct (Source.find_workspace_directory env _ (bufpath context))
    as [workspace cache].
  cbn [Source.client Source.set_workspace_cache].
  destruct (Source.client self'); [|done].
  destruct (Client.suggest _ _ _ _ _ _ _ _ _) as [result|e]; [|done].
  destruct (negb _); cbn [fst]; [by intros [= <-]|].
  intros [= <-]. apply Forall_fmap, Forall_forall. intros cand _. cbn.
  split_and!; [done|apply build_abbr_prefix|].
  intros Hk. unfold Source.build_abbr. by rewrite bool_decide_eq_false_2.
Qed.

Lemma gather_candidates_shape_witness :
  Forall (fun c => dup c = 1%Z /\ info c `prefix_of` abbr c
                   /\ (kind c <> "Method" -> abbr c = info c))
    [ {| word := "label"; kind := "Method"; dup := 1; abbr := "label(a, b)";
         info := "label"; menu := "=> String" |};
      {| word := "String"; kind := "Class"; dup := 1; abbr := "String";
         info := "String"; menu := "Class" |} ].
Proof.
  apply (gather_candidates_shape env_ok source1 context0 world1).
  reflexivity.
Defined.

(** The walk reads the environment through [os.path.exists] only. *)
Lemma find_dir_loop_ext (env env' : Env) (targets : list str) (fuel : nat) :
  (forall p, path_exists env' p = path_exists env p) ->
  forall base_dir,
  find_dir_loop env' fuel base_dir targets = find_dir_loop env fuel base_dir targets.
Proof.
  intros Hex.
  assert (forall b,
    existsb (fun path => path_exists env' (PosixPath.join b path)) targets
    = existsb (fun path => path_exists env (PosixPath.join b path)) targets) as He.
  { intros b. induction targets as [|t ts IHt]; [done|].
    simpl. by rewrite Hex, IHt. }
  induction fuel as [|fuel IH]; intros base_dir; [done|].
  by rewrite !find_dir_loop_S, IH, He.
Qed.

Lemma find_workspace_directory_ext (env env' : Env) (cache : gmap str str)
    (filepath : str) :
  (forall p, path_exists env' p = path_exists env p) ->
  Source.find_workspace_directory env' cache filepath
  = Source.find_workspace_directory env cache filepath.
Proof.
  intros Hex. unfold Source.find_workspace_directory, find_dir_recursive.
  by rewrite (find_dir_loop_ext env env' _ _ Hex).
Qed.

(** X19: with the server started, [gather_candidates] makes one request: a
    post to the url of the server followed by [suggest], with the fields
    text, line (the line of the cursor less one), column, filename and
    workspace, in this order. A transport that answers this request alike
    gives the same result, whatever it answers to any other. *)
Theorem gather_candidates_one_request (env : Env)
    (post : str -> list (str * pyval) -> outcome str) (self : Source.t)
    (context : Context) (w : World) (cl : Client.t) :
  Source.is_server_started self = true ->
  Source.client self = Some cl ->
  (let fields :=
     [("text" : str, PStr (Py.join [Py.nl] (getlines env)));
      ("line" : str, PInt (position_1 context - 1));
      ("column" : str, PInt (complete_position context));
      ("filename" : str, PStr (bufpath context))]
     ++ field "workspace"
          (PStr <$> (Source.find_workspace_directory env
                       (Source.workspace_cache self) (bufpath context)).1) in
   post (Client.url cl ++ "suggest") fields
   = http_post env (Client.url cl ++ "suggest") fields) ->
  Source.gather_candidates (with_http post env) self context w
  = Source.gather_candidates env self context w.
Proof.
  intros Hst Hcl Hpost. cbv zeta in Hpost.
  rewrite !(gather_candidates_started _ self context w cl Hst Hcl). cbv zeta.
  rewrite (find_workspace_directory_ext env (with_http post env)) by done.
  rewrite !suggest_sends. cbv zeta.
  cbn [http_post json_loads getlines with_http field fmap option_fmap option_map].
  rewrite !app_nil_r.
  change (?a :: ?b :: ?c :: [?d] ++ ?e) with ([a; b; c; d] ++ e) in Hpost.
  cbn [app] in Hpost |- *. by rewrite Hpost.
Qed.

Lemma gather_candidates_one_request_witness :
  Source.gather_candidates
    (with_http (fun _ _ => Raise (HTTPError 500 "Internal Server Error")) env_boot)
    source1 context0 world1
  = Source.gather_candidates env_boot source1 context0 world1.
Proof.
  apply (gather_candidates_one_request env_boot _ source1 context0 world1
           {| Client.url := "http://localhost:5555/" |}).
  - reflexivity.
  - reflexivity.
  - reflexivity.
Defined.

(** ** The completion position, on any input *)

Lemma star_dollar_inv (s : str) :
  Re.star_dollar s = true ->
  exists tok tail,
    s = tok ++ tail /\ Forall (fun c => Re.word_char c = true) tok
    /\ (tail = [] \/ tail = [Py.nl]).
Proof.
  assert (forall c t, Re.at_dollar (c :: t) = true -> c :: t = [Py.nl]) as Hat.
  { intros c [|d t] H; [|done]. cbn [Re.at_dollar] in H.
    apply Ascii.eqb_eq in H. by rewrite H. }
  induction s as [|c t IH]; intros H.
  - exists [], []. by split_and!; [|constructor|left].
  - rewrite star_dollar_cons in H.
    destruct (Re.star_dollar t) eqn:Ht, (Re.word_char c) eqn:Hc.
    + destruct (IH eq_refl) as (tok & tail & -> & Htok & Htail).
      exists (c :: tok), tail. split_and!; [done|by constructor|done].
    + apply Hat in H. exists [], [Py.nl]. split_and!; [done|constructor|by right].
    + apply Hat in H. exists [], [Py.nl]. split_and!; [done|constructor|by right].
    + apply Hat in H. exists [], [Py.nl]. split_and!; [done|constructor|by right].
Qed.

Lemma search_tail_inv (rest : str) :
  forall pos k,
  Re.search_tail pos rest = Some k ->
  exists j,
    k = pos + j /\ j <= length rest
    /\ Re.star_dollar (drop j rest) = true
    /\ (forall i c, S i = j -> rest !! i = Some c -> Re.word_char c = false).
Proof.
  induction rest as [|c t IH]; intros pos k H; rewrite search_tail_unfold in H.
  - injection H as <-. exists 0. split_and!; [lia|done|done|]. intros; lia.
  - destruct (Re.star_dollar (c :: t)) eqn:Hs.
    + injection H as <-. exists 0. split_and!; [lia|simpl; lia|done|]. intros; lia.
    + destruct (IH _ _ H) as (j & -> & Hj & Hd & Hprev).
      exists (S j). split_and!; [lia|simpl; lia|done|].
      intros i x [= ->] Hx. destruct j as [|j'].
      * injection Hx as ->. rewrite star_dollar_cons in Hs.
        rewrite drop_0 in Hd. rewrite Hd in Hs.
        by destruct (Re.word_char x).
      * by apply (Hprev j').
Qed.

(** X20: on every input [get_complete_position] returns an offset within the
    input; from this offset to the end the input is made of letters, digits,
    [_], [?] and [!] only, but for a newline that may end it, and the
    character before the offset, when there is one, is none of these. *)
Theorem get_complete_position_total (context : Context) :
  exists k,
    Source.get_complete_position context = Z.of_nat k
    /\ k <= length (input context)
    /\ (exists tok tail,
          drop k (input context) = tok ++ tail
          /\ Forall (fun c => Re.word_char c = true) tok
          /\ (tail = [] \/ tail = [Py.nl]))
    /\ (forall i c, S i = k -> input context !! i = Some c ->
          Re.word_char c = false).
Proof.
  unfold Source.get_complete_position.
  destruct (search_tail_is_Some (input context) 0) as [k Hk]. rewrite Hk.
  destruct (search_tail_inv _ _ _ Hk) as (j & -> & Hj & Hd & Hprev).
  exists j. split_and!; [done|done|by apply star_dollar_inv|done].
Qed.

(** ** The announcement, as the search reads it *)

(** X21: the search for [PORT=(\d+)] in a line returns a group exactly when
    the line has an announcement, and the group is then the whole run of
    digits after the first [PORT=] that a digit follows. *)
Theorem search_port_first_announcement (line ds : str) :
  Re.search_port line = Some ds <-> first_announcement line ds.
Proof. split; [apply search_port_Some|apply search_port_first]. Qed.

(** ** The port and the url *)

Lemma int_of_digits_uint (d : Decimal.uint) (acc : N) :
  fold_left (fun acc c => 10 * acc + Py.digit_val c)%N
    (list_ascii_of_string (NilEmpty.string_of_uint d)) acc
  = uint_value d acc.
Proof.
  revert acc. induction d; intros acc; simpl; try done; by rewrite IHd.
Qed.

Lemma of_uint_acc_value (d : Decimal.uint) (p : positive) :
  N.pos (Pos.of_uint_acc d p) = uint_value d (N.pos p).
Proof.
  revert p. induction d; intros p; simpl; try done; rewrite IHd; f_equal; lia.
Qed.

Lemma of_uint_value (d : Decimal.uint) : Pos.of_uint d = uint_value d 0.
Proof.
  induction d; simpl; try done; try (rewrite of_uint_acc_value; f_equal; lia).
Qed.

(** What [str] writes of a number, [int] reads back as this number. *)
Lemma int_of_str_of_N (n : N) : Py.int_of_digits (Py.str_of_N n) = n.
Proof.
  unfold Py.int_of_digits, Py.str_of_N.
  rewrite <- (DecimalN.Unsigned.of_to n) at 2.
  unfold N.of_uint. rewrite of_uint_value.
  unfold NilZero.string_of_uint.
  destruct (N.to_uint n) eqn:E; try apply int_of_digits_uint.
  reflexivity.
Qed.

(** X22: the url of a server names the port recorded: it is
    [http://localhost:], the port written in decimal, and [/], and the
    digits written read back as the port. The announcement need not be
    written the same way: [PORT=0080] gives port 80 and [...:80/]. *)
Theorem init_url_port (env : Env) (cmd : str) (arguments : list str)
    (w w' : World) (srv : Server.t) :
  Server.init env cmd arguments w = (Ret srv, w') ->
  exists p,
    Server.port srv = Some p
    /\ Server.url srv = "http://localhost:" ++ Py.str_of_N p ++ "/"
    /\ Py.int_of_digits (Py.str_of_N p) = p.
Proof.
  intros H.
  destruct (init_Ret _ _ _ _ _ _ H)
    as (lines & pre & l & rest & ds & _ & _ & _ & _ & -> & _ & _).
  eexists. split_and!; [done|done|apply int_of_str_of_N].
Qed.

Lemma init_url_port_witness :
  exists p,
    Server.port
      {| Server.command := "solargraph"; Server.args := ["socket" : str];
         Server.proc := Some 0; Server.port := Some 80%N;
         Server.host := "localhost"; Server.url := "http://localhost:80/" |}
    = Some p
    /\ Server.url
         {| Server.command := "solargraph"; Server.args := ["socket" : str];
            Server.proc := Some 0; Server.port := Some 80%N;
            Server.host := "localhost"; Server.url := "http://localhost:80/" |}
       = "http://localhost:" ++ Py.str_of_N p ++ "/"
    /\ Py.int_of_digits (Py.str_of_N p) = p.
Proof.
  apply (init_url_port env_zeros "solargraph" ["socket" : str] world0
           (after_spawn server0 world0 [])).
  reflexivity.
Defined.

Lemma find_workspace_directory_cache_witness :
  (∅ : gmap str str)
  ⊆ (Source.find_workspace_directory env_proj ∅ "/home/me/proj/lib/a.rb").2.
Proof.
  apply (find_workspace_directory_cache env_proj ∅ "/home/me/proj/lib/a.rb").
Defined.

Lemma get_complete_position_total_witness :
  exists k,
    Source.get_complete_position context0 = Z.of_nat k
    /\ k <= length (input context0)
    /\ (exists tok tail,
          drop k (input context0) = tok ++ tail
          /\ Forall (fun c => Re.word_char c = true) tok
          /\ (tail = [] \/ tail = [Py.nl]))
    /\ (forall i c, S i = k -> input context0 !! i = Some c ->
          Re.word_char c = false).
Proof. apply (get_complete_position_total context0). Defined.

(** ** A failing request, seen from [gather_candidates] *)

Lemma start_server_True_reports (env : Env) (self self1 : Source.t)
    (w w1 : World) :
  Source.start_server env self w = (Ret Source.PyTrue, self1, w1) ->
  reports w1 = reports w /\ length (children w1) <= S (length (children w)).
Proof.
  intros H. destruct (Source.is_server_started self) eqn:Hst.
  - rewrite (start_server_guard env self w Hst) in H. injection H as <- <-.
    split; [done|lia].
  - destruct (start_server_inv env self w Hst)
      as [[_ Hr]|(srv & w' & Hin & Heq)].
    + rewrite H in Hr. by specialize (Hr _ eq_refl).
    + rewrite Heq in H. injection H as <- <-.
      destruct (init_Ret _ _ _ _ _ _ Hin) as (?&?&?&?&?&_&_&_&_&_&_&->).
      unfold after_spawn. cbn. split; [done|]. rewrite length_app. simpl. lia.
Qed.

(** C1, as the code has it: [gather_candidates] has no handler around the
    call of [suggest]. When [start_server] returns [True], the server
    having been started before or by this call, a [ClientError] raised by
    [suggest] leaves [gather_candidates] as it is: no list of candidates is
    returned, and [print_error] is not called (the messages reported are
    those there were before the call). *)
Theorem gather_candidates_client_error (env : Env) (self self1 : Source.t)
    (context : Context) (w w1 : World) (cl : Client.t) (msg : str) :
  Source.start_server env self w = (Ret Source.PyTrue, self1, w1) ->
  Source.client self1 = Some cl ->
  Client.suggest env cl (Py.join [Py.nl] (getlines env))
    (position_1 context - 1) (complete_position context)
    (Some (bufpath context))
    (Source.find_workspace_directory env (Source.workspace_cache self1)
       (bufpath context)).1
    None None
  = Raise (ClientError msg) ->
  Source.gather_candidates env self context w
  = (Raise (ClientError msg),
     Source.set_workspace_cache
       (Source.find_workspace_directory env (Source.workspace_cache self1)
          (bufpath context)).2 self1,
     w1)
  /\ reports w1 = reports w.
Proof.
  intros Hstart Hcl Hsug.
  split; [|by apply (start_server_True_reports env self self1 w w1)].
  unfold Source.gather_candidates. rewrite Hstart. cbn [Source.truthy negb].
  destruct (Source.find_workspace_directory env (Source.workspace_cache self1)
              (bufpath context)) as [workspace cache].
  cbn [Source.client Source.set_workspace_cache]. rewrite Hcl.
  cbn [fst snd] in Hsug. by rewrite Hsug.
Qed.

Lemma gather_candidates_client_error_witness :
  (Source.gather_candidates env_boot source0 context0 world0
   = (Raise (ClientError "HTTP Error 500: Internal Server Error"),
      Source.set_workspace_cache
        (Source.find_workspace_directory env_boot (Source.workspace_cache source1)
           (bufpath context0)).2 source1,
      world1)
   /\ reports world1 = reports world0)
  /\ (Source.gather_candidates env_boot source1 context0 world1
      = (Raise (ClientError "HTTP Error 500: Internal Server Error"),
         Source.set_workspace_cache
           (Source.find_workspace_directory env_boot (Source.workspace_cache source1)
              (bufpath context0)).2 source1,
         world1)
      /\ reports world1 = reports world1).
Proof.
  split.
  - apply (gather_candidates_client_error env_boot source0 source1 context0
             world0 world1 {| Client.url := "http://localhost:5555/" |}).
    + reflexivity.
    + reflexivity.
    + reflexivity.
  - apply (gather_candidates_client_error env_boot source1 source1 context0
             world1 world1 {| Client.url := "http://localhost:5555/" |}).
    + reflexivity.
    + reflexivity.
    + reflexivity.
Defined.

(** ** Starting a server that is started *)

Lemma gather_candidates_started_world (env : Env) (self : Source.t)
    (context : Context) (w : World) :
  Source.is_server_started self = true ->
  children (Source.gather_candidates env self context w).2 = children w
  /\ Source.server (Source.gather_candidates env self context w).1.2
     = Source.server self.
Proof.
  intros Hst. unfold Source.gather_candidates.
  rewrite (start_server_guard env self w Hst). cbn [Source.truthy negb].
  destruct (Source.find_workspace_directory env (Source.workspace_cache self)
              (bufpath context)) as [workspace cache].
  cbn [Source.client Source.set_workspace_cache].
  destruct (Source.client self); [|done].
  destruct (Client.suggest _ _ _ _ _ _ _ _ _); [|done].
  by destruct (negb _).
Qed.

(** C6: on a source whose server is started, [start_server] is a no-op
    success: it returns [True] and leaves the source, with the server it
    holds, and the world as they are, so that no second child is spawned
    and nothing is reported; nor does a call of [gather_candidates] spawn a
    child or replace the server. The call of [start_server] that started the
    server spawned one child, the one whose handle the server holds. *)
Theorem start_server_already_started (env : Env) (self : Source.t) (w : World) :
  Source.is_server_started self = true ->
  Source.start_server env self w = (Ret Source.PyTrue, self, w)
  /\ children (Source.start_server env self w).2 = children w
  /\ reports (Source.start_server env self w).2 = reports w
  /\ (forall context,
        children (Source.gather_candidates env self context w).2 = children w
        /\ Source.server (Source.gather_candidates env self context w).1.2
           = Source.server self)
  /\ (forall self0 w0,
        Source.is_server_started self0 = false ->
        Source.start_server env self0 w0 = (Ret Source.PyTrue, self, w) ->
        length (children w) = S (length (children w0))
        /\ exists srv,
             Source.server self = Some srv
             /\ Server.proc srv = Some (length (children w0))).
Proof.
  intros H. rewrite (start_server_guard env self w H).
  split_and!; [done|done|done| |].
  - intros context. by apply gather_candidates_started_world.
  - intros self0 w0 Hst0 Hstart.
    destruct (start_server_inv env self0 w0 Hst0)
      as [[_ Hr]|(srv & w' & Hin & Heq)].
    + rewrite Hstart in Hr. by specialize (Hr _ eq_refl).
    + rewrite Heq in Hstart. injection Hstart as <- <-.
      destruct (init_Ret _ _ _ _ _ _ Hin) as (?&?&?&?&?&_&_&_&_&->&_&->).
      unfold after_spawn. cbn. split; [rewrite length_app; simpl; lia|].
      by eexists.
Qed.

Lemma start_server_already_started_witness :
  Source.start_server env_boot source1 world1 = (Ret Source.PyTrue, source1, world1)
  /\ children (Source.gather_candidates env_boot source1 context0 world1).2
     = children world1
  /\ (length (children world1) = S (length (children world0))
      /\ exists srv,
           Source.server source1 = Some srv
           /\ Server.proc srv = Some (length (children world0))).
Proof.
  destruct (start_server_already_started env_boot source1 world1 eq_refl)
    as (H1 & _ & _ & H2 & H3).
  split; [exact H1|].
  split; [apply (H2 context0)|].
  apply (H3 source0 world0); reflexivity.
Defined.
